(** * Dataset import of [backend/products/views.py]

    A shallow embedding of the view [import_dataset]: the access guard, the
    dispatch on the file extension, the check of the required columns, the
    loop over the rows of the data frame with its per-row [try]/[except], and
    the response.  The Django ORM, the pandas readers and the Python builtins
    [str.strip], [float] and [int] are modelled as far as the view uses
    them. *)

From Stdlib Require Import String Ascii List ZArith QArith Bool Lia.
From Stdlib Require Import DecimalString.
Import ListNotations.

Local Open Scope string_scope.
Local Open Scope Z_scope.

(** ** Python values met by the view *)

Module Py.

(** A Python [float]: the finite values are kept as the exact rational they
    denote (in lowest terms, so that equal values are equal terms); rounding
    to binary64, and overflow to infinity, are not modelled. *)
Inductive pyfloat : Type :=
| Finite (q : Q)
| Inf (negative : bool)
| NanF.

(** The exceptions the view can meet.  [OtherError] stands for any exception
    of the storage layer or of the pandas readers, with its message. *)
Inductive exn : Type :=
| AttributeError (type_name attr : string)
| ValueErrorFloat (text : string)
| ValueErrorInt (text : string)
| ValueErrorNan
| OverflowErrorInf
| KeyError (key : string)
| MultipleObjectsReturned (model : string)
| OtherError (msg : string).

Inductive result (A : Type) : Type :=
| Ok (a : A)
| Raise (e : exn).
Arguments Ok {A} a.
Arguments Raise {A} e.

(** [str.isspace]; a [str] is the sequence of its code points, and the
    texts considered have all their code points below 256. *)
Definition is_space (c : ascii) : bool :=
  let n := nat_of_ascii c in
  ((9 <=? n) && (n <=? 13) || (28 <=? n) && (n <=? 32)
   || (n =? 133) || (n =? 160))%nat.

Fixpoint lstrip (s : string) : string :=
  match s with
  | String c s' => if is_space c then lstrip s' else s
  | EmptyString => EmptyString
  end.

Fixpoint rstrip (s : string) : string :=
  match s with
  | String c s' =>
      match rstrip s' with
      | EmptyString => if is_space c then EmptyString else String c EmptyString
      | t => String c t
      end
  | EmptyString => EmptyString
  end.

(** [s.strip()] *)
Definition strip (s : string) : string := rstrip (lstrip s).

(** Truth value of a [str]: the empty string is falsy. *)
Definition truthy (s : string) : bool :=
  match s with EmptyString => false | _ => true end.

Fixpoint ends_with_rev (suffix s : list ascii) : bool :=
  match suffix, s with
  | [], _ => true
  | a :: suffix', b :: s' => Ascii.eqb a b && ends_with_rev suffix' s'
  | _ :: _, [] => false
  end.

(** [s.endswith(suffix)] *)
Definition endswith (s suffix : string) : bool :=
  ends_with_rev (rev (list_ascii_of_string suffix)) (rev (list_ascii_of_string s)).

(** [sep.join(l)] *)
Fixpoint join (sep : string) (l : list string) : string :=
  match l with
  | [] => ""
  | [x] => x
  | x :: rest => x ++ sep ++ join sep rest
  end.

(** [str(n)] for a non-negative [int]. *)
Definition str_nat (n : nat) : string := NilZero.string_of_uint (Nat.to_uint n).

(** *** Numeric literals *)

Definition digit_of (c : ascii) : option Z :=
  let n := nat_of_ascii c in
  if ((48 <=? n) && (n <=? 57))%nat then Some (Z.of_nat n - 48) else None.

(** [digitpart ::= digit (["_"] digit)*]: reads the longest digit part at the
    head of [s]; returns its value, the number of its digits and the rest.
    [None] when [s] does not start with a digit. *)
Fixpoint digits_tail (s : list ascii) (acc : Z) (n : nat) : Z * nat * list ascii :=
  match s with
  | c :: s' =>
      match digit_of c with
      | Some d => digits_tail s' (10 * acc + d) (S n)
      | None =>
          if Ascii.eqb c "_" then
            match s' with
            | c' :: s'' =>
                match digit_of c' with
                | Some d => digits_tail s'' (10 * acc + d) (S n)
                | None => (acc, n, s)
                end
            | [] => (acc, n, s)
            end
          else (acc, n, s)
      end
  | [] => (acc, n, s)
  end.

Definition digitpart (s : list ascii) : option (Z * nat * list ascii) :=
  match s with
  | c :: s' =>
      match digit_of c with
      | Some d => Some (digits_tail s' d 1%nat)
      | None => None
      end
  | [] => None
  end.

(** [[sign]]: the sign read (true when negative) and the rest. *)
Definition sign (s : list ascii) : bool * list ascii :=
  match s with
  | c :: s' =>
      if Ascii.eqb c "-" then (true, s')
      else if Ascii.eqb c "+" then (false, s')
      else (false, s)
  | [] => (false, s)
  end.

Definition apply_sign (neg : bool) (z : Z) : Z := if neg then - z else z.

(** [int(text)] in base 10: surrounding whitespace, an optional sign, a digit
    part, nothing else. *)
Definition int_of_str (text : string) : result Z :=
  let (neg, s) := sign (list_ascii_of_string (strip text)) in
  match digitpart s with
  | Some (v, _, []) => Ok (apply_sign neg v)
  | _ => Raise (ValueErrorInt text)
  end.

Definition lower (c : ascii) : ascii :=
  let n := nat_of_ascii c in
  if ((65 <=? n) && (n <=? 90))%nat then ascii_of_nat (n + 32) else c.

Definition lower_string (s : list ascii) : string :=
  string_of_list_ascii (map lower s).

(** [m * 10^e] as a rational in lowest terms. *)
Definition scale10 (m e : Z) : Q :=
  Qred (if 0 <=? e then inject_Z (m * 10 ^ e) else Qmake m (Z.to_pos (10 ^ (- e)))).

(** [number ::= [digitpart] "." digitpart | digitpart ["."]]: the mantissa,
    the number of digits after the point, and the rest. *)
Definition number (s : list ascii) : option (Z * nat * list ascii) :=
  match digitpart s with
  | Some (ip, _, rest) =>
      match rest with
      | c :: rest' =>
          if Ascii.eqb c "." then
            match digitpart rest' with
            | Some (fp, k, rest'') => Some (ip * 10 ^ Z.of_nat k + fp, k, rest'')
            | None => Some (ip, 0%nat, rest')
            end
          else Some (ip, 0%nat, rest)
      | [] => Some (ip, 0%nat, [])
      end
  | None =>
      match s with
      | c :: rest' =>
          if Ascii.eqb c "." then
            match digitpart rest' with
            | Some (fp, k, rest'') => Some (fp, k, rest'')
            | None => None
            end
          else None
      | [] => None
      end
  end.

(** [exponent ::= ("e" | "E") [sign] digitpart], to the end of the text. *)
Definition exponent (s : list ascii) : option Z :=
  match s with
  | [] => Some 0
  | c :: s' =>
      if Ascii.eqb (lower c) "e" then
        let (neg, s'') := sign s' in
        match digitpart s'' with
        | Some (v, _, []) => Some (apply_sign neg v)
        | _ => None
        end
      else None
  end.

(** [float(text)]: surrounding whitespace, an optional sign, then
    [inf], [infinity] or [nan] in any case, or a decimal number with an
    optional exponent. *)
Definition float_of_str (text : string) : result pyfloat :=
  let (neg, s) := sign (list_ascii_of_string (strip text)) in
  let name := lower_string s in
  if String.eqb name "inf" || String.eqb name "infinity" then Ok (Inf neg)
  else if String.eqb name "nan" then Ok NanF
  else
    match number s with
    | Some (m, k, rest) =>
        match exponent rest with
        | Some e => Ok (Finite (scale10 (apply_sign neg m) (e - Z.of_nat k)))
        | None => Raise (ValueErrorFloat text)
        end
    | None => Raise (ValueErrorFloat text)
    end.

(** [int(x)] for a [float]: truncation towards zero. *)
Definition int_of_float (x : pyfloat) : result Z :=
  match x with
  | Finite q => Ok (Z.quot (Qnum q) (Z.pos (Qden q)))
  | Inf _ => Raise OverflowErrorInf
  | NanF => Raise ValueErrorNan
  end.

Definition float_of_int (z : Z) : pyfloat := Finite (inject_Z z).

(** [str(e)] for the exceptions above (the text of a literal is shown between
    quotes as it is). *)
Definition str_exn (e : exn) : string :=
  match e with
  | AttributeError t a => "'" ++ t ++ "' object has no attribute '" ++ a ++ "'"
  | ValueErrorFloat t => "could not convert string to float: '" ++ t ++ "'"
  | ValueErrorInt t => "invalid literal for int() with base 10: '" ++ t ++ "'"
  | ValueErrorNan => "cannot convert float NaN to integer"
  | OverflowErrorInf => "cannot convert float infinity to integer"
  | KeyError k => "'" ++ k ++ "'"
  | MultipleObjectsReturned m => "get() returned more than one " ++ m ++ " -- it returned more than one!"
  | OtherError msg => msg
  end.

End Py.

(** ** Data frames *)

(** A cell of a row of the data frame: the absent marker ([NaN], [None]), a
    [str], an [int] or a [float]. *)
Inductive cell : Type :=
| Na
| Str (s : string)
| Int (z : Z)
| Float (x : Py.pyfloat).

(** A row maps column names to cells; [iterrows] yields the rows in order,
    each with its 0-based index. *)
Definition Row : Type := list (string * cell).

Record DataFrame : Type := {
  columns : list string;
  rows : list Row
}.

(** [pd.notna(c)] *)
Definition notna (c : cell) : bool :=
  match c with
  | Na => false
  | Float Py.NanF => false
  | _ => true
  end.

(** [row[key]] *)
Fixpoint row_get (row : Row) (key : string) : Py.result cell :=
  match row with
  | (k, c) :: row' => if String.eqb k key then Py.Ok c else row_get row' key
  | [] => Py.Raise (Py.KeyError key)
  end.

(** [c.strip()]: only a [str] has the method. *)
Definition cell_strip (c : cell) : Py.result string :=
  match c with
  | Str s => Py.Ok (Py.strip s)
  | Int _ => Py.Raise (Py.AttributeError "int" "strip")
  | Na | Float _ => Py.Raise (Py.AttributeError "float" "strip")
  end.

(** [float(c)] *)
Definition cell_float (c : cell) : Py.result Py.pyfloat :=
  match c with
  | Str s => Py.float_of_str s
  | Int z => Py.Ok (Py.float_of_int z)
  | Float x => Py.Ok x
  | Na => Py.Ok Py.NanF
  end.

(** [int(c)] *)
Definition cell_int (c : cell) : Py.result Z :=
  match c with
  | Str s => Py.int_of_str s
  | Int z => Py.Ok z
  | Float x => Py.int_of_float x
  | Na => Py.Raise Py.ValueErrorNan
  end.

(** ** The records of the three models *)

Record Fournisseur : Type := {
  f_pk : nat;
  f_nom : string;
  f_adresse : string;
  f_contact : string;
  f_magasin : nat
}.

(** The dictionary [produit_data] built from a row. *)
Record ProduitData : Type := {
  d_nom : string;
  d_reference : string;
  d_categorie : string;
  d_prix_unitaire : Py.pyfloat;
  d_seuil_alerte : Z;
  d_fournisseur : option nat;
  d_magasin : nat
}.

(** A product; [fournisseur] and [magasin] hold the key of the linked
    record, or [None]. *)
Record Produit : Type := {
  pk : nat;
  nom : string;
  reference : string;
  categorie : string;
  prix_unitaire : Py.pyfloat;
  seuil_alerte : Z;
  fournisseur : option nat;
  magasin : option nat
}.

Record Stock : Type := {
  s_pk : nat;
  s_produit : nat;
  s_magasin : nat;
  quantite : Z
}.

(** The tables, each in the order of its primary keys. *)
Record DB : Type := {
  fournisseurs : list Fournisseur;
  produits : list Produit;
  stocks : list Stock
}.

(** The dictionary [stats]. *)
Record Stats : Type := {
  produits_created : Z;
  produits_updated : Z;
  fournisseurs_created : Z;
  stocks_created : Z;
  stocks_updated : Z;
  errors : list string
}.

Definition stats0 : Stats :=
  {| produits_created := 0; produits_updated := 0; fournisseurs_created := 0;
     stocks_created := 0; stocks_updated := 0; errors := [] |}.

(** The calls the view makes to the storage layer. *)
Inductive orm_call : Type :=
| FournisseurGetOrCreate (nom : string) (magasin : nat)
| ProduitFilterFirst (reference : string) (magasin : nat)
| ProduitSave (p : Produit)
| ProduitCreate (d : ProduitData)
| StockFilterFirst (produit : nat) (magasin : nat)
| StockSave (s : Stock)
| StockCreate (produit : nat) (magasin : nat) (quantite : Z).

(** A new primary key: above every key of the table. *)
Definition fresh_pk (pks : list nat) : nat := S (list_max pks).

Definition fournisseur_matches (nom : string) (mag : nat) (f : Fournisseur) : bool :=
  String.eqb (f_nom f) nom && Nat.eqb (f_magasin f) mag.

Definition produit_matches (ref : string) (mag : nat) (p : Produit) : bool :=
  String.eqb (reference p) ref
  && match magasin p with Some m => Nat.eqb m mag | None => false end.

Definition stock_matches (prod mag : nat) (s : Stock) : bool :=
  Nat.eqb (s_produit s) prod && Nat.eqb (s_magasin s) mag.

(** [Produit.objects.filter(reference=ref, magasin=mag).first()] *)
Definition produit_first (d : DB) (ref : string) (mag : nat) : option Produit :=
  find (produit_matches ref mag) (produits d).

(** [Stock.objects.filter(produit=prod, magasin=mag).first()] *)
Definition stock_first (d : DB) (prod mag : nat) : option Stock :=
  find (stock_matches prod mag) (stocks d).

(** [obj.save()] of an existing record: the row of that key is rewritten. *)
Definition save_produit (p : Produit) (d : DB) : DB :=
  {| fournisseurs := fournisseurs d;
     produits := map (fun x => if Nat.eqb (pk x) (pk p) then p else x) (produits d);
     stocks := stocks d |}.

Definition save_stock (s : Stock) (d : DB) : DB :=
  {| fournisseurs := fournisseurs d;
     produits := produits d;
     stocks := map (fun x => if Nat.eqb (s_pk x) (s_pk s) then s else x) (stocks d) |}.

(** The end of the two default texts; a [str] is the sequence of its code
    points, here 224 and 233 for the two accented letters. *)
Definition a_completer : string :=
  String (ascii_of_nat 224) (" compl" ++ String (ascii_of_nat 233) "ter").

Definition new_fournisseur (d : DB) (nom : string) (mag : nat) : Fournisseur :=
  {| f_pk := fresh_pk (map f_pk (fournisseurs d));
     f_nom := nom;
     f_adresse := "Adresse " ++ a_completer;
     f_contact := "Contact " ++ a_completer;
     f_magasin := mag |}.

(** [Produit.objects.create] on the keys of [produit_data] *)
Definition new_produit (d : DB) (data : ProduitData) : Produit :=
  {| pk := fresh_pk (map pk (produits d));
     nom := d_nom data;
     reference := d_reference data;
     categorie := d_categorie data;
     prix_unitaire := d_prix_unitaire data;
     seuil_alerte := d_seuil_alerte data;
     fournisseur := d_fournisseur data;
     magasin := Some (d_magasin data) |}.

Definition new_stock (d : DB) (prod mag : nat) (q : Z) : Stock :=
  {| s_pk := fresh_pk (map s_pk (stocks d));
     s_produit := prod; s_magasin := mag; quantite := q |}.

Definition add_fournisseur (f : Fournisseur) (d : DB) : DB :=
  {| fournisseurs := fournisseurs d ++ [f]; produits := produits d; stocks := stocks d |}.

Definition add_produit (p : Produit) (d : DB) : DB :=
  {| fournisseurs := fournisseurs d; produits := produits d ++ [p]; stocks := stocks d |}.

Definition add_stock (s : Stock) (d : DB) : DB :=
  {| fournisseurs := fournisseurs d; produits := produits d; stocks := stocks d ++ [s] |}.

(** The loop [for key, value in produit_data.items()] of the update branch:
    every key but ['reference'] is set on the existing product. *)
Definition set_attrs (existing : Produit) (data : ProduitData) : Produit :=
  {| pk := pk existing;
     nom := d_nom data;
     reference := reference existing;
     categorie := d_categorie data;
     prix_unitaire := d_prix_unitaire data;
     seuil_alerte := d_seuil_alerte data;
     fournisseur := d_fournisseur data;
     magasin := Some (d_magasin data) |}.

(** ** State and exceptions of the loop body *)

Record World : Type := {
  db : DB;
  stats : Stats
}.

(** A computation that reads and writes the tables and the counters and
    either returns or raises; what was written before a raise stays. *)
Definition M (A : Type) : Type := World -> World * Py.result A.

Definition ret {A : Type} (a : A) : M A := fun w => (w, Py.Ok a).

Definition bind {A B : Type} (m : M A) (k : A -> M B) : M B :=
  fun w =>
    match m w with
    | (w', Py.Ok a) => k a w'
    | (w', Py.Raise e) => (w', Py.Raise e)
    end.

Definition lift {A : Type} (r : Py.result A) : M A := fun w => (w, r).

Definition modify_db (f : DB -> DB) : M unit :=
  fun w => ({| db := f (db w); stats := stats w |}, Py.Ok tt).

Definition modify_stats (f : Stats -> Stats) : M unit :=
  fun w => ({| db := db w; stats := f (stats w) |}, Py.Ok tt).

Definition get_db : M DB := fun w => (w, Py.Ok (db w)).

Notation "x <- m ;; k" := (bind m (fun x => k))
  (at level 61, m at next level, right associativity).
Notation "m ;;; k" := (bind m (fun _ => k))
  (at level 61, right associativity).

Definition incr_produits_created (s : Stats) : Stats :=
  {| produits_created := produits_created s + 1; produits_updated := produits_updated s;
     fournisseurs_created := fournisseurs_created s; stocks_created := stocks_created s;
     stocks_updated := stocks_updated s; errors := errors s |}.

Definition incr_produits_updated (s : Stats) : Stats :=
  {| produits_created := produits_created s; produits_updated := produits_updated s + 1;
     fournisseurs_created := fournisseurs_created s; stocks_created := stocks_created s;
     stocks_updated := stocks_updated s; errors := errors s |}.

Definition incr_fournisseurs_created (s : Stats) : Stats :=
  {| produits_created := produits_created s; produits_updated := produits_updated s;
     fournisseurs_created := fournisseurs_created s + 1; stocks_created := stocks_created s;
     stocks_updated := stocks_updated s; errors := errors s |}.

Definition incr_stocks_created (s : Stats) : Stats :=
  {| produits_created := produits_created s; produits_updated := produits_updated s;
     fournisseurs_created := fournisseurs_created s; stocks_created := stocks_created s + 1;
     stocks_updated := stocks_updated s; errors := errors s |}.

Definition incr_stocks_updated (s : Stats) : Stats :=
  {| produits_created := produits_created s; produits_updated := produits_updated s;
     fournisseurs_created := fournisseurs_created s; stocks_created := stocks_created s;
     stocks_updated := stocks_updated s + 1; errors := errors s |}.

(** [stats['errors'].append(msg)] *)
Definition append_error (msg : string) (s : Stats) : Stats :=
  {| produits_created := produits_created s; produits_updated := produits_updated s;
     fournisseurs_created := fournisseurs_created s; stocks_created := stocks_created s;
     stocks_updated := stocks_updated s; errors := errors s ++ [msg] |}.

(** ** The request and the response *)

(** [request.user]: [role] is [None] when the user has no such attribute;
    [user_magasin] is [None] when the user has no attribute [magasin] and
    [Some None] when the attribute is [None]. *)
Record User : Type := {
  role : option string;
  user_magasin : option (option nat)
}.

Record UploadedFile : Type := {
  name : string;
  content : string
}.

Record Request : Type := {
  user : User;
  FILES_file : option UploadedFile
}.

Inductive Body : Type :=
| ErrorBody (error : string)
| ImportBody (message : string) (stats : Stats).

Record Response : Type := {
  body : Body;
  status : nat
}.

Definition HTTP_200_OK : nat := 200.
Definition HTTP_400_BAD_REQUEST : nat := 400.
Definition HTTP_403_FORBIDDEN : nat := 403.

(** What a call of the view leaves: the response, the tables, and whether
    the content of the uploaded file was read. *)
Record Outcome : Type := {
  response : Response;
  db_after : DB;
  file_read : bool
}.

Definition required_columns : list string :=
  ["nom"; "reference"; "categorie"; "prix"; "seuil_alerte"; "fournisseur"; "stock"].

(** [x in l] for strings *)
Definition str_in (x : string) (l : list string) : bool := existsb (String.eqb x) l.

(** [[col for col in required_columns if col not in df.columns]] *)
Definition missing_columns (df : DataFrame) : list string :=
  filter (fun col => negb (str_in col (columns df))) required_columns.

Section View.

(** The collaborators of the view.  A call to the storage layer may raise
    (an integrity or a validation error, a lost connection): [orm_fault]
    tells, for the tables as they are and a call, whether it raises and with
    which message.  [read_csv] stands for decoding the bytes as UTF-8 and
    [pd.read_csv], [read_excel] for [pd.read_excel]. *)
Variable orm_fault : DB -> orm_call -> option string.
Variable read_csv : string -> Py.result DataFrame.
Variable read_excel : UploadedFile -> Py.result DataFrame.

Definition orm (c : orm_call) : M unit :=
  fun w =>
    match orm_fault (db w) c with
    | Some msg => (w, Py.Raise (Py.OtherError msg))
    | None => (w, Py.Ok tt)
    end.

(** [Fournisseur.objects.get_or_create(nom=nom, magasin=mag, defaults=...)]:
    the record and whether it was created; [get] raises when several records
    match. *)
Definition get_or_create (nom : string) (mag : nat) : M (Fournisseur * bool) :=
  orm (FournisseurGetOrCreate nom mag) ;;;
  d <- get_db ;;
  match filter (fournisseur_matches nom mag) (fournisseurs d) with
  | [] =>
      let f := new_fournisseur d nom mag in
      modify_db (add_fournisseur f) ;;; ret (f, true)
  | [f] => ret (f, false)
  | _ => lift (Py.Raise (Py.MultipleObjectsReturned "Fournisseur"))
  end.

(** Step 1 of the loop body: the supplier of the row, if any. *)
Definition gerer_fournisseur (mag : nat) (row : Row) : M (option Fournisseur) :=
  c <- lift (row_get row "fournisseur") ;;
  if notna c then
    s <- lift (cell_strip c) ;;
    if Py.truthy s then
      r <- get_or_create s mag ;;
      (if snd r then modify_stats incr_fournisseurs_created else ret tt) ;;;
      ret (Some (fst r))
    else ret None
  else ret None.

(** [float(row[key]) if pd.notna(row[key]) else 0] *)
Definition float_or_zero (row : Row) (key : string) : M Py.pyfloat :=
  c <- lift (row_get row key) ;;
  if notna c then lift (cell_float c) else ret (Py.float_of_int 0).

(** [int(row[key]) if pd.notna(row[key]) else 0] *)
Definition int_or_zero (row : Row) (key : string) : M Z :=
  c <- lift (row_get row key) ;;
  if notna c then lift (cell_int c) else ret 0.

(** [row[key].strip()] *)
Definition stripped (row : Row) (key : string) : M string :=
  c <- lift (row_get row key) ;;
  lift (cell_strip c).

(** The dictionary [produit_data], its values evaluated in order. *)
Definition build_produit_data (mag : nat) (row : Row) (f : option Fournisseur)
  : M ProduitData :=
  n <- stripped row "nom" ;;
  r <- stripped row "reference" ;;
  c <- stripped row "categorie" ;;
  p <- float_or_zero row "prix" ;;
  a <- int_or_zero row "seuil_alerte" ;;
  ret {| d_nom := n; d_reference := r; d_categorie := c; d_prix_unitaire := p;
         d_seuil_alerte := a; d_fournisseur := option_map f_pk f; d_magasin := mag |}.

(** Step 2 of the loop body: the product is updated or created. *)
Definition gerer_produit (mag : nat) (row : Row) (f : option Fournisseur) : M Produit :=
  data <- build_produit_data mag row f ;;
  orm (ProduitFilterFirst (d_reference data) mag) ;;;
  d <- get_db ;;
  match produit_first d (d_reference data) mag with
  | Some existing_produit =>
      let p := set_attrs existing_produit data in
      orm (ProduitSave p) ;;;
      modify_db (save_produit p) ;;;
      modify_stats incr_produits_updated ;;;
      ret p
  | None =>
      orm (ProduitCreate data) ;;;
      let p := new_produit d data in
      modify_db (add_produit p) ;;;
      modify_stats incr_produits_created ;;;
      ret p
  end.

Definition add_quantite (s : Stock) (q : Z) : Stock :=
  {| s_pk := s_pk s; s_produit := s_produit s; s_magasin := s_magasin s;
     quantite := quantite s + q |}.

(** Step 3 of the loop body: the stock of the product in the store. *)
Definition gerer_stock (mag : nat) (row : Row) (produit_obj : Produit) : M unit :=
  c <- lift (row_get row "stock") ;;
  if notna c then
    q <- lift (cell_int c) ;;
    if 0 <? q then
      orm (StockFilterFirst (pk produit_obj) mag) ;;;
      d <- get_db ;;
      match stock_first d (pk produit_obj) mag with
      | Some existing_stock =>
          let s := add_quantite existing_stock q in
          orm (StockSave s) ;;;
          modify_db (save_stock s) ;;;
          modify_stats incr_stocks_updated
      | None =>
          orm (StockCreate (pk produit_obj) mag q) ;;;
          modify_db (add_stock (new_stock d (pk produit_obj) mag q)) ;;;
          modify_stats incr_stocks_created
      end
    else ret tt
  else ret tt.

(** The body of the [try] of one row. *)
Definition row_body (mag : nat) (row : Row) : M unit :=
  fournisseur_obj <- gerer_fournisseur mag row ;;
  produit_obj <- gerer_produit mag row fournisseur_obj ;;
  gerer_stock mag row produit_obj.

(** [f"Ligne {index + 2}: {str(e)}"] *)
Definition error_msg (index : nat) (e : Py.exn) : string :=
  "Ligne " ++ Py.str_nat (index + 2) ++ ": " ++ Py.str_exn e.

(** One turn of the loop: the body, and the [except] clause when it raises. *)
Definition process_row (mag : nat) (index : nat) (row : Row) (w : World) : World :=
  match row_body mag row w with
  | (w', Py.Ok _) => w'
  | (w', Py.Raise e) =>
      {| db := db w'; stats := append_error (error_msg index e) (stats w') |}
  end.

(** [for index, row in df.iterrows()], from the row of index [index]. *)
Fixpoint iterrows_loop (mag : nat) (index : nat) (rows : list Row) (w : World) : World :=
  match rows with
  | [] => w
  | row :: rest => iterrows_loop mag (S index) rest (process_row mag index row w)
  end.

Definition error_response (msg : string) (code : nat) : Response :=
  {| body := ErrorBody msg; status := code |}.

(** The [try] around the readers: [None] for an extension that is not
    supported, else what the reader returned or raised. *)
Definition read_file (file : UploadedFile) : option (Py.result DataFrame) :=
  if Py.endswith (name file) ".csv" then Some (read_csv (content file))
  else if Py.endswith (name file) ".xlsx" || Py.endswith (name file) ".xls"
       then Some (read_excel file)
  else None.

(** The view.  An uploaded file is falsy when its name is empty.  Nothing
    modelled here raises outside the two inner [try] blocks, so the outer
    [except] of the source has no branch. *)
Definition import_dataset (request : Request) (d : DB) : Outcome :=
  let stop msg code fr :=
    {| response := error_response msg code; db_after := d; file_read := fr |} in
  match role (user request) with
  | None =>
      stop "Seuls les managers et admins peuvent importer des datasets."
           HTTP_403_FORBIDDEN false
  | Some r =>
      if negb (str_in r ["manager"; "admin"]) then
        stop "Seuls les managers et admins peuvent importer des datasets."
             HTTP_403_FORBIDDEN false
      else
        match user_magasin (user request) with
        | None | Some None =>
            stop ("Utilisateur non assign" ++ String (ascii_of_nat 233) " " ++
                  String (ascii_of_nat 224) " un magasin.")
                 HTTP_400_BAD_REQUEST false
        | Some (Some mag) =>
            match FILES_file request with
            | None => stop "Aucun fichier fourni." HTTP_400_BAD_REQUEST false
            | Some file =>
                if negb (Py.truthy (name file)) then
                  stop "Aucun fichier fourni." HTTP_400_BAD_REQUEST false
                else
                  match read_file file with
                  | None =>
                      stop ("Format de fichier non support" ++
                            String (ascii_of_nat 233) ". Utilisez CSV ou Excel.")
                           HTTP_400_BAD_REQUEST false
                  | Some (Py.Raise e) =>
                      stop ("Erreur lors de la lecture du fichier: " ++ Py.str_exn e)
                           HTTP_400_BAD_REQUEST true
                  | Some (Py.Ok df) =>
                      match missing_columns df with
                      | _ :: _ =>
                          stop ("Colonnes manquantes: " ++
                                Py.join ", " (missing_columns df))
                               HTTP_400_BAD_REQUEST true
                      | [] =>
                          let w := iterrows_loop mag 0 (rows df)
                                     {| db := d; stats := stats0 |} in
                          {| response :=
                               {| body := ImportBody ("Import termin" ++
                                            String (ascii_of_nat 233) "") (stats w);
                                  status := HTTP_200_OK |};
                             db_after := db w;
                             file_read := true |}
                      end
                  end
            end
        end
  end.

End View.

(** ** Notions used in the statements *)

(** The product object at the end of step 2 of a row, when steps 1 and 2
    raise nothing. *)
Definition produit_obj_of (orm_fault : DB -> orm_call -> option string)
    (mag : nat) (row : Row) (w : World) : option Produit :=
  match (f <- gerer_fournisseur orm_fault mag row ;;
         gerer_produit orm_fault mag row f) w with
  | (_, Py.Ok p) => Some p
  | (_, Py.Raise _) => None
  end.

(** The quantity in stock of a product in a store: that of the record
    [filter(...).first()] finds, 0 when there is none. *)
Definition stock_quantity (d : DB) (prod mag : nat) : Z :=
  match stock_first d prod mag with
  | Some s => quantite s
  | None => 0
  end.

(** The caller's role is one of manager and admin. *)
Definition role_allowed (u : User) : bool :=
  match role u with
  | Some r => str_in r ["manager"; "admin"]
  | None => false
  end.

(** The store the caller is bound to. *)
Definition bound_store (u : User) : option nat :=
  match user_magasin u with
  | Some (Some mag) => Some mag
  | _ => None
  end.

(** No counter of [s] is above that of [s']. *)
Definition counters_le (s s' : Stats) : Prop :=
  produits_created s <= produits_created s'
  /\ produits_updated s <= produits_updated s'
  /\ fournisseurs_created s <= fournisseurs_created s'
  /\ stocks_created s <= stocks_created s'
  /\ stocks_updated s <= stocks_updated s'.

(** A storage layer that never raises. *)
Definition no_fault : DB -> orm_call -> option string := fun _ _ => None.


(** *** Sample data *)

Definition empty_db : DB := {| fournisseurs := []; produits := []; stocks := [] |}.

Definition world0 : World := {| db := empty_db; stats := stats0 |}.

Definition mkrow (n r c p a f s : cell) : Row :=
  [("nom", n); ("reference", r); ("categorie", c); ("prix", p);
   ("seuil_alerte", a); ("fournisseur", f); ("stock", s)].

Definition row_A : Row :=
  mkrow (Str "A") (Str "REF1") (Str "cat") (Str "10.5") (Str "5") (Str "Acme") (Str "3").

Definition row_A2 : Row :=
  mkrow (Str "A2") (Str "REF1") (Str "cat") (Str "12") (Str "5") (Str "Acme") (Str "2").

Definition manager (mag : nat) : User :=
  {| role := Some "manager"; user_magasin := Some (Some mag) |}.

Definition csv_request (u : User) : Request :=
  {| user := u; FILES_file := Some {| name := "dataset.csv"; content := "" |} |}.

Definition frame_of (rs : list Row) : DataFrame :=
  {| columns := required_columns; rows := rs |}.

(** Readers that return a given frame. *)
Definition csv_gives (df : DataFrame) : string -> Py.result DataFrame :=
  fun _ => Py.Ok df.

Definition excel_gives (df : DataFrame) : UploadedFile -> Py.result DataFrame :=
  fun _ => Py.Ok df.

(** A row for another reference. *)
Definition row_B : Row :=
  mkrow (Str "B") (Str "REF2") (Str "cat") (Str "4") (Str "1") (Str "Acme") (Str "7").

(** Rows with one cell of interest: a blank supplier, absent numbers, a price
    and a stock that are not numbers, a stock of zero, an absent name. *)
Definition row_blank_supplier : Row :=
  mkrow (Str "A") (Str "REF1") (Str "cat") (Str "10.5") (Str "5") (Str "   ") (Str "3").






(** The product the first row of the scenario creates in empty tables, and
    what the second row makes of it. *)
Definition produit_of_row_A : Produit :=
  {| pk := 1; nom := "A"; reference := "REF1"; categorie := "cat";
     prix_unitaire := Py.Finite (21 # 2); seuil_alerte := 5;
     fournisseur := Some 1%nat; magasin := Some 1%nat |}.

Definition produit_of_row_A2 : Produit :=
  {| pk := 1; nom := "A2"; reference := "REF1"; categorie := "cat";
     prix_unitaire := Py.Finite 12; seuil_alerte := 5;
     fournisseur := Some 1%nat; magasin := Some 1%nat |}.

(** A frame without the price and stock columns. *)
Definition frame_without_price : DataFrame :=
  {| columns := ["nom"; "reference"; "categorie"; "seuil_alerte"; "fournisseur"];
     rows := [row_A] |}.

(** A caller whose role may not import, and one bound to no store. *)
Definition employee : User :=
  {| role := Some "employe"; user_magasin := Some (Some 1%nat) |}.

Definition manager_without_store : User :=
  {| role := Some "manager"; user_magasin := Some None |}.

(** ** The list view [ProduitListCreateView] *)

(** The product belongs to the store [mag]. *)
Definition in_store (mag : nat) (p : Produit) : bool :=
  match magasin p with
  | Some m => Nat.eqb m mag
  | None => false
  end.

(** [get_queryset]: every product, or those of the caller's store when the
    caller has one and is not a superuser.  [superuser] is
    [user.is_superuser]. *)
Definition get_queryset (u : User) (superuser : bool) (d : DB) : list Produit :=
  match user_magasin u with
  | Some (Some mag) =>
      if negb superuser then filter (in_store mag) (produits d) else produits d
  | _ => produits d
  end.

(** The validated data of the serializer, which is outside this file and is
    taken as given. *)
Record ValidatedData : Type := {
  v_nom : string;
  v_reference : string;
  v_categorie : string;
  v_prix_unitaire : Py.pyfloat;
  v_seuil_alerte : Z;
  v_fournisseur : option nat
}.

(** [perform_create]: [serializer.save(magasin=magasin)] creates the product
    from the validated data, with the caller's store when the caller has one
    and is not a superuser, and with no store otherwise.  Returns the tables
    and the product. *)
Definition perform_create (u : User) (superuser : bool) (v : ValidatedData)
    (d : DB) : DB * Produit :=
  let mag :=
    match user_magasin u with
    | Some (Some m) => if negb superuser then Some m else None
    | _ => None
    end in
  let p := {| pk := fresh_pk (map pk (produits d));
              nom := v_nom v;
              reference := v_reference v;
              categorie := v_categorie v;
              prix_unitaire := v_prix_unitaire v;
              seuil_alerte := v_seuil_alerte v;
              fournisseur := v_fournisseur v;
              magasin := mag |} in
  (add_produit p d, p).

(** ** What the loop writes *)

(** One write of the loop body, or of its [except] clause, for the store
    [mag]: a supplier created, a product updated or created, a quantity
    added to a stock record or a stock record created, a message appended. *)
Inductive write (mag : nat) : World -> World -> Prop :=
| write_fournisseur w nom :
    filter (fournisseur_matches nom mag) (fournisseurs (db w)) = [] ->
    write mag w
      {| db := add_fournisseur (new_fournisseur (db w) nom mag) (db w);
         stats := incr_fournisseurs_created (stats w) |}
| write_produit_update w existing data :
    produit_first (db w) (d_reference data) mag = Some existing ->
    d_magasin data = mag ->
    write mag w
      {| db := save_produit (set_attrs existing data) (db w);
         stats := incr_produits_updated (stats w) |}
| write_produit_create w data :
    produit_first (db w) (d_reference data) mag = None ->
    d_magasin data = mag ->
    write mag w
      {| db := add_produit (new_produit (db w) data) (db w);
         stats := incr_produits_created (stats w) |}
| write_stock_update w prod existing q :
    stock_first (db w) prod mag = Some existing -> 0 < q ->
    write mag w
      {| db := save_stock (add_quantite existing q) (db w);
         stats := incr_stocks_updated (stats w) |}
| write_stock_create w prod q :
    stock_first (db w) prod mag = None -> 0 < q ->
    write mag w
      {| db := add_stock (new_stock (db w) prod mag q) (db w);
         stats := incr_stocks_created (stats w) |}
| write_error w msg :
    write mag w {| db := db w; stats := append_error msg (stats w) |}.

(** A sequence of writes. *)
Inductive writes (mag : nat) : World -> World -> Prop :=
| writes_none w : writes mag w w
| writes_then w1 w2 w3 : write mag w1 w2 -> writes mag w2 w3 -> writes mag w1 w3.

(** The primary keys of each table are pairwise distinct. *)
Definition pk_unique (d : DB) : Prop :=
  NoDup (map f_pk (fournisseurs d))
  /\ NoDup (map pk (produits d))
  /\ NoDup (map s_pk (stocks d)).

(** The natural keys are pairwise distinct: the name and store of the
    suppliers, the reference and store of the products, the product and
    store of the stock records. *)
Definition natural_keys_unique (d : DB) : Prop :=
  NoDup (map (fun f => (f_nom f, f_magasin f)) (fournisseurs d))
  /\ NoDup (map (fun p => (reference p, magasin p)) (produits d))
  /\ NoDup (map (fun s => (s_produit s, s_magasin s)) (stocks d)).

(** The supplier was created by the import for the store [mag]: it carries
    the two default texts. *)
Definition placeholder_supplier (mag : nat) (f : Fournisseur) : Prop :=
  f_magasin f = mag
  /\ f_adresse f = "Adresse " ++ a_completer
  /\ f_contact f = "Contact " ++ a_completer.

(** Each table has grown by what its counter of creations has. *)
Definition growth_matches (w0 w : World) : Prop :=
  Z.of_nat (length (fournisseurs (db w)))
  = Z.of_nat (length (fournisseurs (db w0)))
    + (fournisseurs_created (stats w) - fournisseurs_created (stats w0))
  /\ Z.of_nat (length (produits (db w)))
     = Z.of_nat (length (produits (db w0)))
       + (produits_created (stats w) - produits_created (stats w0))
  /\ Z.of_nat (length (stocks (db w)))
     = Z.of_nat (length (stocks (db w0)))
       + (stocks_created (stats w) - stocks_created (stats w0)).


(** *** More sample data *)

(** Tables with a product in store 1, one in store 2 and one in no store,
    and a stock record for each of the first two. *)
Definition produit_in (key : nat) (ref : string) (mag : option nat) : Produit :=
  {| pk := key; nom := ref; reference := ref; categorie := "cat";
     prix_unitaire := Py.Finite 1; seuil_alerte := 0;
     fournisseur := None; magasin := mag |}.

Definition two_stores_db : DB :=
  {| fournisseurs :=
       [{| f_pk := 1; f_nom := "Acme"; f_adresse := "1 rue A"; f_contact := "a";
           f_magasin := 2 |}];
     produits := [produit_in 1 "REF1" (Some 1%nat); produit_in 2 "REF1" (Some 2%nat);
                  produit_in 3 "REF9" None];
     stocks := [{| s_pk := 1; s_produit := 1; s_magasin := 1; quantite := 10 |};
                {| s_pk := 2; s_produit := 2; s_magasin := 2; quantite := 20 |}] |}.


Definition superuser_of (mag : nat) : User :=
  {| role := Some "admin"; user_magasin := Some (Some mag) |}.

Definition sample_data : ValidatedData :=
  {| v_nom := "N"; v_reference := "REF7"; v_categorie := "cat";
     v_prix_unitaire := Py.Finite 3; v_seuil_alerte := 1; v_fournisseur := None |}.

(** ** Properties *)

Ltac unfold_m :=
  unfold bind, lift, ret, orm, get_db, modify_db, modify_stats in *.

Ltac split_match :=
  match goal with
  | |- context [match ?x with _ => _ end] => destruct x eqn:?
  | H : context [match ?x with _ => _ end] |- _ => destruct x eqn:?
  end.

Ltac inv_pair :=
  repeat match goal with
  | H : (_, _) = (_, _) |- _ => inversion H; subst; clear H
  | H : Py.Ok _ = Py.Ok _ |- _ => inversion H; subst; clear H
  | H : Py.Raise _ = Py.Raise _ |- _ => inversion H; subst; clear H
  | H : Some _ = Some _ |- _ => inversion H; subst; clear H
  end.

Ltac run_m := unfold_m; repeat (split_match; simpl in *; inv_pair; try discriminate).

(** *** Lists *)

Section Lists.

Context {A : Type}.
Variable test : A -> bool.

Lemma find_app_none (l l' : list A) :
  find test l = None -> find test (l ++ l') = find test l'.
Proof.
  induction l as [|a l IH]; simpl; intros H; [reflexivity|].
  destruct (test a); [discriminate|auto].
Qed.

Lemma find_app_some (l l' : list A) (x : A) :
  find test l = Some x -> find test (l ++ l') = Some x.
Proof.
  induction l as [|a l IH]; simpl; intros H; [discriminate|].
  destruct (test a); auto.
Qed.

Lemma find_some_test (l : list A) (x : A) :
  find test l = Some x -> test x = true.
Proof.
  intros H. apply find_some in H. tauto.
Qed.

(** Rewriting the rows of key [key new] with [new], which passes [test],
    when the first row passing [test] has that key: [new] is now the first
    one passing [test]. *)
Lemma find_map_replace (key : A -> nat) (l : list A) (old new : A) :
  find test l = Some old -> key old = key new -> test new = true ->
  find test (map (fun x => if Nat.eqb (key x) (key new) then new else x) l)
  = Some new.
Proof.
  intros Hf Hk Ht. induction l as [|a l IH]; simpl in *; [discriminate|].
  destruct (test a) eqn:Ha.
  - inv_pair. rewrite Hk, Nat.eqb_refl. rewrite Ht. reflexivity.
  - destruct (Nat.eqb (key a) (key new)).
    + rewrite Ht. reflexivity.
    + rewrite Ha. auto.
Qed.

End Lists.

Section Properties.

Variable orm_fault : DB -> orm_call -> option string.


(** *** What each step may touch *)

(** Step 1 leaves the products, the stocks, the error list and every counter
    but [fournisseurs_created], which it never lowers. *)
Lemma gerer_fournisseur_frame mag row w w' r :
  gerer_fournisseur orm_fault mag row w = (w', r) ->
  produits (db w') = produits (db w)
  /\ stocks (db w') = stocks (db w)
  /\ errors (stats w') = errors (stats w)
  /\ produits_created (stats w') = produits_created (stats w)
  /\ produits_updated (stats w') = produits_updated (stats w)
  /\ stocks_created (stats w') = stocks_created (stats w)
  /\ stocks_updated (stats w') = stocks_updated (stats w)
  /\ fournisseurs_created (stats w) <= fournisseurs_created (stats w').
Proof.
  unfold gerer_fournisseur, get_or_create. intros H.
  run_m; repeat split; simpl; auto; lia.
Qed.

(** Building [produit_data] reads the row only. *)
Lemma build_produit_data_pure mag row f w w' r :
  build_produit_data mag row f w = (w', r) -> w' = w.
Proof.
  unfold build_produit_data, stripped, float_or_zero, int_or_zero. intros H.
  run_m; reflexivity.
Qed.

(** Step 2, when it returns: the two branches of the upsert. *)
Lemma gerer_produit_ok mag row f w w' p :
  gerer_produit orm_fault mag row f w = (w', Py.Ok p) ->
  exists data,
    build_produit_data mag row f w = (w, Py.Ok data)
    /\ ((exists existing,
           produit_first (db w) (d_reference data) mag = Some existing
           /\ p = set_attrs existing data
           /\ w' = {| db := save_produit p (db w);
                      stats := incr_produits_updated (stats w) |})
        \/ (produit_first (db w) (d_reference data) mag = None
            /\ p = new_produit (db w) data
            /\ w' = {| db := add_produit p (db w);
                       stats := incr_produits_created (stats w) |})).
Proof.
  unfold gerer_produit. intros H. unfold bind at 1 in H.
  destruct (build_produit_data mag row f w) as [w1 [data|e]] eqn:Hb; [|discriminate].
  apply build_produit_data_pure in Hb as Hw. subst w1.
  exists data. split; [reflexivity|].
  run_m.
  - left. eexists. repeat split; eassumption.
  - right. repeat split; assumption.
Qed.

(** Step 2, when it raises, has written nothing. *)
Lemma gerer_produit_raise mag row f w w' e :
  gerer_produit orm_fault mag row f w = (w', Py.Raise e) -> w' = w.
Proof.
  unfold gerer_produit. intros H. unfold bind at 1 in H.
  destruct (build_produit_data mag row f w) as [w1 [data|e1]] eqn:Hb;
    apply build_produit_data_pure in Hb; subst w1.
  - run_m; reflexivity.
  - inv_pair. reflexivity.
Qed.

(** Step 2 leaves the suppliers, the stocks, the error list and every counter
    but the two of the products, which it never lowers. *)
Lemma gerer_produit_frame mag row f w w' r :
  gerer_produit orm_fault mag row f w = (w', r) ->
  fournisseurs (db w') = fournisseurs (db w)
  /\ stocks (db w') = stocks (db w)
  /\ errors (stats w') = errors (stats w)
  /\ fournisseurs_created (stats w') = fournisseurs_created (stats w)
  /\ stocks_created (stats w') = stocks_created (stats w)
  /\ stocks_updated (stats w') = stocks_updated (stats w)
  /\ produits_created (stats w) <= produits_created (stats w')
  /\ produits_updated (stats w) <= produits_updated (stats w').
Proof.
  intros H. destruct r as [p|e].
  - apply gerer_produit_ok in H as [data [_ [[ex [_ [_ ->]]]|[_ [_ ->]]]]];
      simpl; repeat split; lia.
  - apply gerer_produit_raise in H as ->. repeat split; lia.
Qed.

(** Step 3 when the stock cell is absent or holds an integer that is not
    positive: nothing is written and nothing is raised. *)
Lemma gerer_stock_skips mag row p w c :
  row_get row "stock" = Py.Ok c ->
  notna c = false \/ (exists q, cell_int c = Py.Ok q /\ q <= 0) ->
  gerer_stock orm_fault mag row p w = (w, Py.Ok tt).
Proof.
  intros Hc H. unfold gerer_stock. unfold_m. rewrite Hc.
  destruct H as [-> | [q [Hq Hle]]]; [reflexivity|].
  rewrite Hq. destruct (notna c); [|reflexivity].
  destruct (0 <? q) eqn:E; [apply Z.ltb_lt in E; lia | reflexivity].
Qed.

(** Step 3 when [int] rejects the stock cell: the exception comes out and
    nothing is written. *)
Lemma gerer_stock_unparseable mag row p w c e :
  row_get row "stock" = Py.Ok c -> notna c = true -> cell_int c = Py.Raise e ->
  gerer_stock orm_fault mag row p w = (w, Py.Raise e).
Proof.
  intros Hc Hn He. unfold gerer_stock. unfold_m. rewrite Hc, Hn, He. reflexivity.
Qed.

(** Step 3 when it returns on a positive quantity: the quantity is added to
    the record found, or a record is created with it. *)
Lemma gerer_stock_ok mag row p w w' c q :
  row_get row "stock" = Py.Ok c -> notna c = true -> cell_int c = Py.Ok q -> 0 < q ->
  gerer_stock orm_fault mag row p w = (w', Py.Ok tt) ->
  (exists existing,
     stock_first (db w) (pk p) mag = Some existing
     /\ w' = {| db := save_stock (add_quantite existing q) (db w);
                stats := incr_stocks_updated (stats w) |})
  \/ (stock_first (db w) (pk p) mag = None
      /\ w' = {| db := add_stock (new_stock (db w) (pk p) mag q) (db w);
                 stats := incr_stocks_created (stats w) |}).
Proof.
  intros Hc Hn Hq Hpos. unfold gerer_stock. unfold_m. rewrite Hc, Hn, Hq.
  apply Z.ltb_lt in Hpos. rewrite Hpos. intros H.
  run_m.
  - left. eexists. split; [eassumption|reflexivity].
  - right. split; [assumption|reflexivity].
Qed.

(** Step 3 leaves the suppliers, the products, the error list and every
    counter but the two of the stocks, which it never lowers. *)
Lemma gerer_stock_frame mag row p w w' r :
  gerer_stock orm_fault mag row p w = (w', r) ->
  fournisseurs (db w') = fournisseurs (db w)
  /\ produits (db w') = produits (db w)
  /\ errors (stats w') = errors (stats w)
  /\ fournisseurs_created (stats w') = fournisseurs_created (stats w)
  /\ produits_created (stats w') = produits_created (stats w)
  /\ produits_updated (stats w') = produits_updated (stats w)
  /\ stocks_created (stats w) <= stocks_created (stats w')
  /\ stocks_updated (stats w) <= stocks_updated (stats w').
Proof.
  unfold gerer_stock. intros H.
  run_m; repeat split; simpl; auto; lia.
Qed.

(** Step 3 when it raises has written nothing. *)
Lemma gerer_stock_raise mag row p w w' e :
  gerer_stock orm_fault mag row p w = (w', Py.Raise e) -> w' = w.
Proof.
  unfold gerer_stock. intros H. run_m; reflexivity.
Qed.

(** The quantity after step 3 returned on a positive quantity. *)
Lemma gerer_stock_adds mag row p w w' c q :
  row_get row "stock" = Py.Ok c -> notna c = true -> cell_int c = Py.Ok q -> 0 < q ->
  gerer_stock orm_fault mag row p w = (w', Py.Ok tt) ->
  stock_quantity (db w') (pk p) mag = stock_quantity (db w) (pk p) mag + q.
Proof.
  intros Hc Hn Hq Hpos H.
  destruct (gerer_stock_ok _ _ _ _ _ _ _ Hc Hn Hq Hpos H)
    as [[ex [Hf ->]] | [Hf ->]]; unfold stock_quantity, stock_first in *; simpl.
  - rewrite Hf.
    pose proof (find_map_replace (stock_matches (pk p) mag) s_pk (stocks (db w))
                  ex (add_quantite ex q) Hf eq_refl) as E.
    simpl in E. rewrite E; [reflexivity|].
    apply find_some_test in Hf. exact Hf.
  - rewrite Hf. rewrite find_app_none by assumption. simpl.
    unfold stock_matches. simpl. rewrite !Nat.eqb_refl. simpl. lia.
Qed.

(** *** The dictionary [produit_data] *)

(** When it is built, each value comes from its cell as the source says. *)
Lemma build_produit_data_ok mag row f w w' data :
  build_produit_data mag row f w = (w', Py.Ok data) ->
  (exists c, row_get row "nom" = Py.Ok c /\ cell_strip c = Py.Ok (d_nom data))
  /\ (exists c, row_get row "reference" = Py.Ok c
                /\ cell_strip c = Py.Ok (d_reference data))
  /\ (exists c, row_get row "categorie" = Py.Ok c
                /\ cell_strip c = Py.Ok (d_categorie data))
  /\ (exists c, row_get row "prix" = Py.Ok c
                /\ if notna c then cell_float c = Py.Ok (d_prix_unitaire data)
                   else d_prix_unitaire data = Py.Finite 0)
  /\ (exists c, row_get row "seuil_alerte" = Py.Ok c
                /\ if notna c then cell_int c = Py.Ok (d_seuil_alerte data)
                   else d_seuil_alerte data = 0)
  /\ d_fournisseur data = option_map f_pk f
  /\ d_magasin data = mag.
Proof.
  unfold build_produit_data, stripped, float_or_zero, int_or_zero. intros H.
  unfold_m.
  destruct (row_get row "nom") as [cn|] eqn:Hn; [|discriminate].
  destruct (cell_strip cn) as [sn|] eqn:Hsn; [|discriminate].
  destruct (row_get row "reference") as [cr|] eqn:Hr; [|discriminate].
  destruct (cell_strip cr) as [sr|] eqn:Hsr; [|discriminate].
  destruct (row_get row "categorie") as [cc|] eqn:Hc; [|discriminate].
  destruct (cell_strip cc) as [sc|] eqn:Hsc; [|discriminate].
  destruct (row_get row "prix") as [cp|] eqn:Hp; [|discriminate].
  destruct (row_get row "seuil_alerte") as [ca|] eqn:Ha.
  - destruct (notna cp) eqn:Np; destruct (notna ca) eqn:Na';
      repeat (split_match; try discriminate); inv_pair; simpl;
      repeat split; eauto;
      eexists; (split; [reflexivity|]);
      rewrite ?Np, ?Na'; auto.
  - destruct (notna cp); repeat (split_match; try discriminate); discriminate.
Qed.


(** *** The body of a row *)

Lemma row_body_eq mag row w :
  row_body orm_fault mag row w =
  match gerer_fournisseur orm_fault mag row w with
  | (w1, Py.Ok f) =>
      match gerer_produit orm_fault mag row f w1 with
      | (w2, Py.Ok p) => gerer_stock orm_fault mag row p w2
      | (w2, Py.Raise e) => (w2, Py.Raise e)
      end
  | (w1, Py.Raise e) => (w1, Py.Raise e)
  end.
Proof. reflexivity. Qed.

Lemma produit_obj_of_eq mag row w :
  produit_obj_of orm_fault mag row w =
  match gerer_fournisseur orm_fault mag row w with
  | (w1, Py.Ok f) =>
      match gerer_produit orm_fault mag row f w1 with
      | (_, Py.Ok p) => Some p
      | (_, Py.Raise _) => None
      end
  | (_, Py.Raise _) => None
  end.
Proof.
  unfold produit_obj_of, bind.
  destruct (gerer_fournisseur orm_fault mag row w) as [w1 [f|e]]; reflexivity.
Qed.

(** The body never touches the error list and never lowers a counter. *)
Lemma row_body_frame mag row w w' r :
  row_body orm_fault mag row w = (w', r) ->
  errors (stats w') = errors (stats w) /\ counters_le (stats w) (stats w').
Proof.
  rewrite row_body_eq. intros H. unfold counters_le.
  destruct (gerer_fournisseur orm_fault mag row w) as [w1 [f|e]] eqn:H1;
    apply gerer_fournisseur_frame in H1.
  - destruct (gerer_produit orm_fault mag row f w1) as [w2 [p|e]] eqn:H2;
      apply gerer_produit_frame in H2.
    + apply gerer_stock_frame in H. intuition (try congruence; try lia).
    + inv_pair. intuition (try congruence; try lia).
  - inv_pair. intuition (try congruence; try lia).
Qed.

(** Steps 1 and 2 leave the stocks; step 3 leaves the products. *)
Lemma row_body_tables mag row w w' r :
  row_body orm_fault mag row w = (w', r) ->
  match produit_obj_of orm_fault mag row w with
  | Some p =>
      exists w1 f w2,
        gerer_fournisseur orm_fault mag row w = (w1, Py.Ok f)
        /\ gerer_produit orm_fault mag row f w1 = (w2, Py.Ok p)
        /\ gerer_stock orm_fault mag row p w2 = (w', r)
        /\ stocks (db w2) = stocks (db w)
        /\ produits (db w1) = produits (db w)
        /\ produits (db w') = produits (db w2)
  | None =>
      (exists e, r = Py.Raise e)
      /\ produits (db w') = produits (db w)
      /\ stocks (db w') = stocks (db w)
      /\ produits_created (stats w') = produits_created (stats w)
      /\ produits_updated (stats w') = produits_updated (stats w)
      /\ stocks_created (stats w') = stocks_created (stats w)
      /\ stocks_updated (stats w') = stocks_updated (stats w)
  end.
Proof.
  rewrite row_body_eq, produit_obj_of_eq. intros H.
  destruct (gerer_fournisseur orm_fault mag row w) as [w1 [f|e]] eqn:H1;
    apply gerer_fournisseur_frame in H1 as F1.
  - destruct (gerer_produit orm_fault mag row f w1) as [w2 [p|e]] eqn:H2;
      apply gerer_produit_frame in H2 as F2.
    + exists w1, f, w2. apply gerer_stock_frame in H as F3.
      intuition congruence.
    + apply gerer_produit_raise in H2. subst w2. inv_pair.
      split; [eauto|]. tauto.
  - inv_pair. split; [eauto|]. tauto.
Qed.

(** *** One turn of the loop *)

Lemma process_row_ok mag index row w w' :
  row_body orm_fault mag row w = (w', Py.Ok tt) ->
  process_row orm_fault mag index row w = w'.
Proof. unfold process_row. intros ->. reflexivity. Qed.





(** *** The loop *)



(** Step 2, when it returns: the product it returns is the one the lookup by
    its reference now finds in the store, with the supplier of step 1. *)
Lemma gerer_produit_found mag row f w w' p :
  gerer_produit orm_fault mag row f w = (w', Py.Ok p) ->
  produit_first (db w') (reference p) mag = Some p
  /\ fournisseur p = option_map f_pk f
  /\ exists c, row_get row "reference" = Py.Ok c
               /\ cell_strip c = Py.Ok (reference p).
Proof.
  intros H. apply gerer_produit_ok in H as [data [Hb Hcases]].
  apply build_produit_data_ok in Hb as [_ [Hr [_ [_ [_ [Hf Hm]]]]]].
  destruct Hcases as [[ex [Hfind [-> ->]]] | [Hfind [-> ->]]];
    unfold produit_first in *; simpl.
  - apply find_some_test in Hfind as Ht. unfold produit_matches in Ht.
    apply andb_prop in Ht as [Href _]. apply String.eqb_eq in Href.
    rewrite Href. split; [|split; [assumption|assumption]].
    pose proof (find_map_replace (produit_matches (d_reference data) mag) pk
                  (produits (db w)) ex (set_attrs ex data) Hfind eq_refl) as E.
    simpl in E. apply E. unfold produit_matches. simpl.
    rewrite Href, String.eqb_refl, Hm, Nat.eqb_refl. reflexivity.
  - split; [|split; [assumption|assumption]].
    rewrite find_app_none by assumption. simpl. unfold produit_matches. simpl.
    rewrite String.eqb_refl, Hm, Nat.eqb_refl. reflexivity.
Qed.

(** Step 1 on a supplier cell that is absent or blank: no supplier, nothing
    written, nothing raised. *)
Lemma gerer_fournisseur_blank mag row w c :
  row_get row "fournisseur" = Py.Ok c ->
  notna c = false \/ (exists s, c = Str s /\ Py.strip s = "") ->
  gerer_fournisseur orm_fault mag row w = (w, Py.Ok None).
Proof.
  intros Hc H. unfold gerer_fournisseur. unfold_m. rewrite Hc.
  destruct H as [-> | [s [-> Hs]]]; [reflexivity|].
  simpl. rewrite Hs. reflexivity.
Qed.

(** C8: for a row whose supplier cell is absent, or blank once stripped, no
    supplier record is created, the counter of created suppliers keeps its
    value, and the product of the row, the one the store then holds under
    the row's reference, is linked to no supplier. *)
Theorem blank_supplier_links_none mag index row w c :
  row_get row "fournisseur" = Py.Ok c ->
  notna c = false \/ (exists s, c = Str s /\ Py.strip s = "") ->
  let w' := process_row orm_fault mag index row w in
  fournisseurs (db w') = fournisseurs (db w)
  /\ fournisseurs_created (stats w') = fournisseurs_created (stats w)
  /\ forall p, produit_obj_of orm_fault mag row w = Some p ->
               fournisseur p = None
               /\ produit_first (db w') (reference p) mag = Some p.
Proof.
  intros Hc Hb w'.
  pose proof (gerer_fournisseur_blank mag row w c Hc Hb) as H1.
  assert (Hrow : exists w2 r, row_body orm_fault mag row w = (w2, r)
                   /\ db w' = db w2
                   /\ fournisseurs_created (stats w') = fournisseurs_created (stats w2)).
  { subst w'. unfold process_row.
    destruct (row_body orm_fault mag row w) as [w2 [[]|e]] eqn:Hr;
      eexists; eexists; (split; [reflexivity|]); simpl; auto. }
  destruct Hrow as [w2 [r [Hr [Hdb Hfc]]]].
  rewrite Hdb, Hfc. clear Hdb Hfc w'.
  pose proof Hr as Hr'. rewrite row_body_eq, H1 in Hr'.
  rewrite produit_obj_of_eq, H1.
  destruct (gerer_produit orm_fault mag row None w) as [w1 [p|e]] eqn:H2.
  - apply gerer_produit_frame in H2 as F2. apply gerer_stock_frame in Hr' as F3.
    split; [intuition congruence|]. split; [intuition congruence|].
    intros p0 Hp0. inv_pair.
    apply gerer_produit_found in H2 as [Hfound [Hfo _]].
    split; [exact Hfo|].
    unfold produit_first in *. destruct F3 as [_ [-> _]]. exact Hfound.
  - apply gerer_produit_raise in H2. subst w1. inv_pair.
    split; [reflexivity|]. split; [reflexivity|]. intros p0 Hp0. discriminate.
Qed.




(** The lookups read their own table only. *)
Lemma produit_first_ext d d' ref mag :
  produits d = produits d' -> produit_first d ref mag = produit_first d' ref mag.
Proof. unfold produit_first. intros ->. reflexivity. Qed.


(** A turn is the body, plus one message when the body raises. *)
Lemma process_row_body mag index row w :
  exists w2 r,
    row_body orm_fault mag row w = (w2, r)
    /\ db (process_row orm_fault mag index row w) = db w2
    /\ produits_created (stats (process_row orm_fault mag index row w))
       = produits_created (stats w2)
    /\ produits_updated (stats (process_row orm_fault mag index row w))
       = produits_updated (stats w2)
    /\ fournisseurs_created (stats (process_row orm_fault mag index row w))
       = fournisseurs_created (stats w2)
    /\ stocks_created (stats (process_row orm_fault mag index row w))
       = stocks_created (stats w2)
    /\ stocks_updated (stats (process_row orm_fault mag index row w))
       = stocks_updated (stats w2)
    /\ errors (stats (process_row orm_fault mag index row w))
       = match r with
         | Py.Ok _ => errors (stats w)
         | Py.Raise e => (errors (stats w) ++ [error_msg index e])%list
         end.
Proof.
  unfold process_row.
  destruct (row_body orm_fault mag row w) as [w2 [[]|e]] eqn:Hr;
    apply row_body_frame in Hr as [He _];
    eexists; eexists; (split; [reflexivity|]); simpl; rewrite ?He;
    repeat split; reflexivity.
Qed.






(** *** The view *)

Section ViewProperties.

Variable read_csv : string -> Py.result DataFrame.
Variable read_excel : UploadedFile -> Py.result DataFrame.

Lemma str_in_iff x l : str_in x l = true <-> In x l.
Proof.
  unfold str_in. rewrite existsb_exists. split.
  - intros [y [Hin He]]. apply String.eqb_eq in He. subst. exact Hin.
  - intros Hin. exists x. split; [exact Hin | apply String.eqb_refl].
Qed.

(** The missing columns are the required columns the frame does not have. *)
Lemma missing_columns_iff df col :
  In col (missing_columns df) <-> In col required_columns /\ ~ In col (columns df).
Proof.
  unfold missing_columns. rewrite filter_In, negb_true_iff.
  rewrite <- (str_in_iff col (columns df)), not_true_iff_false. reflexivity.
Qed.

(** Past the guard, the upload and the reader, the view checks the columns
    and then runs the loop. *)
Lemma import_dataset_read request d mag file df :
  role_allowed (user request) = true ->
  bound_store (user request) = Some mag ->
  FILES_file request = Some file ->
  Py.truthy (name file) = true ->
  read_file read_csv read_excel file = Some (Py.Ok df) ->
  import_dataset orm_fault read_csv read_excel request d =
  match missing_columns df with
  | _ :: _ =>
      {| response := error_response ("Colonnes manquantes: " ++
                                     Py.join ", " (missing_columns df))
                                    HTTP_400_BAD_REQUEST;
         db_after := d; file_read := true |}
  | [] =>
      let w := iterrows_loop orm_fault mag 0 (rows df)
                 {| db := d; stats := stats0 |} in
      {| response :=
           {| body := ImportBody ("Import termin" ++ String (ascii_of_nat 233) "")
                                 (stats w);
              status := HTTP_200_OK |};
         db_after := db w; file_read := true |}
  end.
Proof.
  unfold role_allowed, bound_store, import_dataset.
  intros Hrole Hmag Hfile Hname Hread.
  destruct (role (user request)) as [r|]; [|discriminate].
  rewrite Hrole. simpl negb. cbv iota.
  destruct (user_magasin (user request)) as [[m|]|]; try discriminate.
  inv_pair. rewrite Hfile, Hname, Hread. simpl negb. cbv iota.
  destruct (missing_columns df); reflexivity.
Qed.

(** C9: when the caller's role is not manager or admin the view answers 403,
    and when the role passes but the caller is bound to no store it answers
    400; either way the body is an error, the tables are as they were and the
    uploaded file was not read. *)
Theorem guard_failure_touches_nothing request d :
  role_allowed (user request) = false \/ bound_store (user request) = None ->
  let out := import_dataset orm_fault read_csv read_excel request d in
  status (response out)
  = (if role_allowed (user request) then HTTP_400_BAD_REQUEST
     else HTTP_403_FORBIDDEN)
  /\ (exists msg, body (response out) = ErrorBody msg)
  /\ db_after out = d
  /\ file_read out = false.
Proof.
  unfold role_allowed, bound_store, import_dataset. intros H.
  destruct (role (user request)) as [r|]; cbv beta iota in *.
  - destruct (str_in r ["manager"; "admin"]) eqn:Hr; simpl negb; cbv beta iota.
    + destruct H as [H|H]; [discriminate|].
      destruct (user_magasin (user request)) as [[m|]|]; try discriminate;
        simpl; repeat split; eauto.
    + simpl. repeat split; eauto.
  - simpl. repeat split; eauto.
Qed.

(** C6: when a required column is absent from the frame the reader returned,
    the view answers 400 with the error message that lists the missing
    columns, which are exactly the required columns the frame lacks; the body
    carries no stats and the tables are as they were, whatever the rows. *)
Theorem missing_column_aborts request d mag file df :
  role_allowed (user request) = true ->
  bound_store (user request) = Some mag ->
  FILES_file request = Some file ->
  Py.truthy (name file) = true ->
  read_file read_csv read_excel file = Some (Py.Ok df) ->
  (exists col, In col required_columns /\ ~ In col (columns df)) ->
  let out := import_dataset orm_fault read_csv read_excel request d in
  response out
  = {| body := ErrorBody ("Colonnes manquantes: " ++
                          Py.join ", " (missing_columns df));
       status := HTTP_400_BAD_REQUEST |}
  /\ db_after out = d
  /\ forall col, In col (missing_columns df)
                 <-> In col required_columns /\ ~ In col (columns df).
Proof.
  intros Hrole Hmag Hfile Hname Hread [col Hcol] out. subst out.
  rewrite (import_dataset_read _ d _ _ _ Hrole Hmag Hfile Hname Hread).
  apply missing_columns_iff in Hcol.
  destruct (missing_columns df) as [|c l] eqn:Hm; [destruct Hcol|].
  split; [reflexivity|]. split; [reflexivity|].
  intros col'. rewrite <- Hm. apply missing_columns_iff.
Qed.


End ViewProperties.

(** *** The steps when the storage layer raises nothing *)

Section NoFault.

Hypothesis no_orm_fault : forall d c, orm_fault d c = None.

Lemma orm_returns c w : orm orm_fault c w = (w, Py.Ok tt).
Proof. unfold orm. rewrite no_orm_fault. reflexivity. Qed.

Lemma get_or_create_creates nom mag w :
  filter (fournisseur_matches nom mag) (fournisseurs (db w)) = [] ->
  get_or_create orm_fault nom mag w
  = ({| db := add_fournisseur (new_fournisseur (db w) nom mag) (db w);
        stats := stats w |},
     Py.Ok (new_fournisseur (db w) nom mag, true)).
Proof.
  intros H. unfold get_or_create. unfold bind at 1. rewrite orm_returns.
  unfold_m. rewrite H. reflexivity.
Qed.

Lemma get_or_create_gets nom mag w f :
  filter (fournisseur_matches nom mag) (fournisseurs (db w)) = [f] ->
  get_or_create orm_fault nom mag w = (w, Py.Ok (f, false)).
Proof.
  intros H. unfold get_or_create. unfold bind at 1. rewrite orm_returns.
  unfold_m. rewrite H. reflexivity.
Qed.

(** Step 1 on a supplier cell that holds a name. *)
Lemma gerer_fournisseur_named mag row w s :
  row_get row "fournisseur" = Py.Ok (Str s) ->
  Py.truthy (Py.strip s) = true ->
  gerer_fournisseur orm_fault mag row w
  = match filter (fournisseur_matches (Py.strip s) mag) (fournisseurs (db w)) with
    | [] =>
        ({| db := add_fournisseur (new_fournisseur (db w) (Py.strip s) mag) (db w);
            stats := incr_fournisseurs_created (stats w) |},
         Py.Ok (Some (new_fournisseur (db w) (Py.strip s) mag)))
    | [f] => (w, Py.Ok (Some f))
    | _ => (w, Py.Raise (Py.MultipleObjectsReturned "Fournisseur"))
    end.
Proof.
  intros Hc Ht. unfold gerer_fournisseur. unfold bind at 1. unfold lift at 1.
  rewrite Hc. unfold bind at 1. unfold lift at 1.
  change (notna (Str s)) with true.
  change (cell_strip (Str s)) with (Py.Ok (Py.strip s)).
  cbv beta iota. rewrite Ht. unfold bind at 1.
  destruct (filter (fournisseur_matches (Py.strip s) mag) (fournisseurs (db w)))
    as [|f [|f' l]] eqn:Hf.
  - rewrite (get_or_create_creates _ _ _ Hf). reflexivity.
  - rewrite (get_or_create_gets _ _ _ _ Hf). destruct w. reflexivity.
  - unfold get_or_create. unfold bind at 1. rewrite orm_returns.
    unfold_m. rewrite Hf. reflexivity.
Qed.

(** Step 2 once [produit_data] is built. *)
Lemma gerer_produit_upserts mag row f w data :
  build_produit_data mag row f w = (w, Py.Ok data) ->
  gerer_produit orm_fault mag row f w
  = match produit_first (db w) (d_reference data) mag with
    | Some existing =>
        ({| db := save_produit (set_attrs existing data) (db w);
            stats := incr_produits_updated (stats w) |},
         Py.Ok (set_attrs existing data))
    | None =>
        ({| db := add_produit (new_produit (db w) data) (db w);
            stats := incr_produits_created (stats w) |},
         Py.Ok (new_produit (db w) data))
    end.
Proof.
  intros Hb. unfold gerer_produit. unfold bind at 1. rewrite Hb.
  unfold bind at 1. rewrite orm_returns. unfold bind at 1. unfold get_db at 1.
  destruct (produit_first (db w) (d_reference data) mag) as [ex|].
  - unfold bind at 1. rewrite orm_returns. reflexivity.
  - unfold bind at 1. rewrite orm_returns. reflexivity.
Qed.

(** Step 3 on a positive quantity. *)
Lemma gerer_stock_accumulates mag row p w c q :
  row_get row "stock" = Py.Ok c -> notna c = true -> cell_int c = Py.Ok q ->
  0 < q ->
  gerer_stock orm_fault mag row p w
  = match stock_first (db w) (pk p) mag with
    | Some existing =>
        ({| db := save_stock (add_quantite existing q) (db w);
            stats := incr_stocks_updated (stats w) |}, Py.Ok tt)
    | None =>
        ({| db := add_stock (new_stock (db w) (pk p) mag q) (db w);
            stats := incr_stocks_created (stats w) |}, Py.Ok tt)
    end.
Proof.
  intros Hc Hn Hq Hpos. apply Z.ltb_lt in Hpos.
  unfold gerer_stock. unfold bind at 1. unfold lift at 1. rewrite Hc, Hn.
  unfold bind at 1. unfold lift at 1. rewrite Hq, Hpos.
  unfold bind at 1. rewrite orm_returns. unfold bind at 1. unfold get_db at 1.
  destruct (stock_first (db w) (pk p) mag) as [ex|].
  - unfold bind at 1. rewrite orm_returns. reflexivity.
  - unfold bind at 1. rewrite orm_returns. reflexivity.
Qed.

End NoFault.

(** *** The scenario of two rows for one reference *)

(** What the two rows of the scenario put in [produit_data]. *)
Lemma build_row_A mag f w :
  build_produit_data mag row_A f w
  = (w, Py.Ok {| d_nom := "A"; d_reference := "REF1"; d_categorie := "cat";
                 d_prix_unitaire := Py.Finite (21 # 2); d_seuil_alerte := 5;
                 d_fournisseur := option_map f_pk f; d_magasin := mag |}).
Proof. reflexivity. Qed.

Lemma build_row_A2 mag f w :
  build_produit_data mag row_A2 f w
  = (w, Py.Ok {| d_nom := "A2"; d_reference := "REF1"; d_categorie := "cat";
                 d_prix_unitaire := Py.Finite 12; d_seuil_alerte := 5;
                 d_fournisseur := option_map f_pk f; d_magasin := mag |}).
Proof. reflexivity. Qed.

(** The first row, on tables with no supplier Acme and no product REF1 in
    the store, and no stock record attached to the key the new product
    receives: one supplier, one product and one stock record are created. *)
Lemma scenario_row_A mag d stats_before :
  (forall d' c, orm_fault d' c = None) ->
  filter (fournisseur_matches "Acme" mag) (fournisseurs d) = [] ->
  produit_first d "REF1" mag = None ->
  stock_first d (fresh_pk (map pk (produits d))) mag = None ->
  let acme := new_fournisseur d "Acme" mag in
  let produit_A :=
    new_produit d {| d_nom := "A"; d_reference := "REF1"; d_categorie := "cat";
                     d_prix_unitaire := Py.Finite (21 # 2); d_seuil_alerte := 5;
                     d_fournisseur := Some (f_pk acme); d_magasin := mag |} in
  let stock_A := new_stock d (pk produit_A) mag 3 in
  row_body orm_fault mag row_A {| db := d; stats := stats_before |}
  = ({| db := add_stock stock_A (add_produit produit_A (add_fournisseur acme d));
        stats := incr_stocks_created
                   (incr_produits_created
                      (incr_fournisseurs_created stats_before)) |},
     Py.Ok tt).
Proof.
  intros Hnf Hsup Hprod Hstock acme produit_A stock_A.
  rewrite row_body_eq.
  rewrite (gerer_fournisseur_named Hnf mag row_A _ "Acme" eq_refl eq_refl).
  change (Py.strip "Acme") with "Acme". simpl db. rewrite Hsup.
  rewrite (gerer_produit_upserts Hnf mag row_A _ _ _ (build_row_A _ _ _)).
  simpl d_reference. simpl db.
  change (produit_first (add_fournisseur (new_fournisseur d "Acme" mag) d) "REF1" mag)
    with (produit_first d "REF1" mag).
  rewrite Hprod.
  rewrite (gerer_stock_accumulates Hnf mag row_A _ _ (Str "3") 3 eq_refl eq_refl eq_refl eq_refl).
  simpl db.
  match goal with
  | |- context [stock_first ?x ?k mag] =>
      change (stock_first x k mag)
        with (stock_first d (fresh_pk (map pk (produits d))) mag)
  end.
  rewrite Hstock. reflexivity.
Qed.

(** The second row, on tables that hold one supplier Acme, a product REF1
    and a stock record of it in the store: the product is updated and the
    quantity is added to its stock. *)
Lemma scenario_row_A2 mag d stats_before acme produit_A stock_A :
  (forall d' c, orm_fault d' c = None) ->
  filter (fournisseur_matches "Acme" mag) (fournisseurs d) = [acme] ->
  produit_first d "REF1" mag = Some produit_A ->
  stock_first d (pk produit_A) mag = Some stock_A ->
  let produit_A2 :=
    set_attrs produit_A
      {| d_nom := "A2"; d_reference := "REF1"; d_categorie := "cat";
         d_prix_unitaire := Py.Finite 12; d_seuil_alerte := 5;
         d_fournisseur := Some (f_pk acme); d_magasin := mag |} in
  row_body orm_fault mag row_A2 {| db := d; stats := stats_before |}
  = ({| db := save_stock (add_quantite stock_A 2) (save_produit produit_A2 d);
        stats := incr_stocks_updated (incr_produits_updated stats_before) |},
     Py.Ok tt).
Proof.
  intros Hnf Hsup Hprod Hstock produit_A2.
  rewrite row_body_eq.
  rewrite (gerer_fournisseur_named Hnf mag row_A2 _ "Acme" eq_refl eq_refl).
  change (Py.strip "Acme") with "Acme". simpl db. rewrite Hsup.
  rewrite (gerer_produit_upserts Hnf mag row_A2 _ _ _ (build_row_A2 _ _ _)).
  simpl d_reference. simpl db. rewrite Hprod.
  rewrite (gerer_stock_accumulates Hnf mag row_A2 _ _ (Str "2") 2 eq_refl eq_refl eq_refl eq_refl).
  simpl db.
  match goal with
  | |- context [stock_first ?x ?k mag] =>
      change (stock_first x k mag) with (stock_first d (pk produit_A) mag)
  end.
  rewrite Hstock. reflexivity.
Qed.

Section Scenario.

Variable read_csv : string -> Py.result DataFrame.
Variable read_excel : UploadedFile -> Py.result DataFrame.

(** C3: from tables with no supplier Acme and no product REF1 in the store,
    and no stock record attached to the key the new product receives, with a
    storage layer that raises nothing, importing a frame with the required
    columns and the two rows (A, REF1, cat, "10.5", "5", "Acme", "3") and
    (A2, REF1, cat, "12", "5", "Acme", "2") answers 200 with each of the five
    counters at 1 and no error, and leaves under REF1 a product of unit price
    12 with 5 in stock. *)
Theorem two_rows_one_reference request d mag file df :
  (forall d' c, orm_fault d' c = None) ->
  role_allowed (user request) = true ->
  bound_store (user request) = Some mag ->
  FILES_file request = Some file ->
  Py.truthy (name file) = true ->
  read_file read_csv read_excel file = Some (Py.Ok df) ->
  missing_columns df = [] ->
  rows df = [row_A; row_A2] ->
  filter (fournisseur_matches "Acme" mag) (fournisseurs d) = [] ->
  produit_first d "REF1" mag = None ->
  stock_first d (fresh_pk (map pk (produits d))) mag = None ->
  let out := import_dataset orm_fault read_csv read_excel request d in
  status (response out) = HTTP_200_OK
  /\ (exists msg,
        body (response out)
        = ImportBody msg
            {| produits_created := 1; produits_updated := 1;
               fournisseurs_created := 1; stocks_created := 1;
               stocks_updated := 1; errors := [] |})
  /\ exists p,
       produit_first (db_after out) "REF1" mag = Some p
       /\ prix_unitaire p = Py.Finite 12
       /\ stock_quantity (db_after out) (pk p) mag = 5.
Proof.
  intros Hnf Hrole Hmag Hfile Hname Hread Hcols Hrows Hsup Hprod Hstock out.
  subst out.
  rewrite (import_dataset_read read_csv read_excel _ d _ _ _ Hrole Hmag Hfile Hname Hread), Hcols.
  cbv zeta. rewrite Hrows. unfold iterrows_loop.
  rewrite (process_row_ok _ _ _ _ _ (scenario_row_A mag d stats0 Hnf Hsup Hprod Hstock)).
  set (acme := new_fournisseur d "Acme" mag).
  set (produit_A := new_produit d _).
  set (stock_A := new_stock d (pk produit_A) mag 3).
  set (db_A := add_stock stock_A (add_produit produit_A (add_fournisseur acme d))).
  assert (Hsup' : filter (fournisseur_matches "Acme" mag) (fournisseurs db_A) = [acme]).
  { simpl. rewrite filter_app, Hsup. simpl.
    unfold fournisseur_matches. simpl. rewrite Nat.eqb_refl. reflexivity. }
  assert (Hprod' : produit_first db_A "REF1" mag = Some produit_A).
  { unfold produit_first. simpl. rewrite find_app_none by exact Hprod.
    simpl. unfold produit_matches. simpl. rewrite Nat.eqb_refl. reflexivity. }
  assert (Hstock' : stock_first db_A (pk produit_A) mag = Some stock_A).
  { unfold stock_first. simpl stocks. rewrite find_app_none by exact Hstock.
    simpl. unfold stock_matches. simpl. rewrite !Nat.eqb_refl. reflexivity. }
  rewrite (process_row_ok _ _ _ _ _
             (scenario_row_A2 mag db_A _ acme produit_A stock_A Hnf Hsup' Hprod' Hstock')).
  set (produit_A2 := set_attrs produit_A _).
  split; [reflexivity|]. split; [eexists; reflexivity|].
  exists produit_A2. simpl db_after. simpl db.
  assert (Hm : produit_matches "REF1" mag produit_A2 = true).
  { unfold produit_matches. simpl. rewrite Nat.eqb_refl. reflexivity. }
  split; [|split; [reflexivity|]].
  - rewrite (produit_first_ext _ (save_produit produit_A2 db_A)) by reflexivity.
    exact (find_map_replace (produit_matches "REF1" mag) pk (produits db_A)
             produit_A produit_A2 Hprod' eq_refl Hm).
  - unfold stock_quantity.
    assert (Hs : stock_first (save_produit produit_A2 db_A) (pk produit_A) mag
                 = Some stock_A) by exact Hstock'.
    assert (Hm2 : stock_matches (pk produit_A) mag (add_quantite stock_A 2) = true).
    { unfold stock_matches. simpl. rewrite !Nat.eqb_refl. reflexivity. }
    assert (E : stock_first
                  (save_stock (add_quantite stock_A 2) (save_produit produit_A2 db_A))
                  (pk produit_A2) mag
                = Some (add_quantite stock_A 2)).
    { exact (find_map_replace (stock_matches (pk produit_A) mag) s_pk
               (stocks (save_produit produit_A2 db_A)) stock_A
               (add_quantite stock_A 2) Hs eq_refl Hm2). }
    rewrite E. reflexivity.
Qed.

End Scenario.

End Properties.

(** ** The statements at sample data *)

(** C8 at a row whose supplier cell is three spaces, on empty tables. *)
Lemma blank_supplier_links_none_witness :
  row_get row_blank_supplier "fournisseur" = Py.Ok (Str "   ")
  /\ Py.strip "   " = ""
  /\ let w' := process_row no_fault 1 0 row_blank_supplier world0 in
     fournisseurs (db w') = fournisseurs (db world0)
     /\ fournisseurs_created (stats w') = fournisseurs_created (stats world0)
     /\ forall p, produit_obj_of no_fault 1 row_blank_supplier world0 = Some p ->
                  fournisseur p = None
                  /\ produit_first (db w') (reference p) 1 = Some p.
Proof.
  split; [reflexivity|]. split; [reflexivity|].
  apply (blank_supplier_links_none no_fault 1 0 row_blank_supplier world0 (Str "   ")).
  - reflexivity.
  - right. exists "   ". split; reflexivity.
Defined.






(** C9 at a caller whose role is employe. *)
Lemma guard_failure_touches_nothing_witness :
  role_allowed employee = false
  /\ let out := import_dataset no_fault (csv_gives (frame_of [row_A]))
                  (excel_gives (frame_of [row_A])) (csv_request employee) empty_db in
     status (response out) = HTTP_403_FORBIDDEN
     /\ (exists msg, body (response out) = ErrorBody msg)
     /\ db_after out = empty_db
     /\ file_read out = false.
Proof.
  split; [reflexivity|].
  apply (guard_failure_touches_nothing no_fault (csv_gives (frame_of [row_A]))
           (excel_gives (frame_of [row_A])) (csv_request employee) empty_db).
  left. reflexivity.
Defined.

(** C6 at a frame that has neither the price column nor the stock column. *)
Lemma missing_column_aborts_witness :
  In "prix" required_columns
  /\ ~ In "prix" (columns frame_without_price)
  /\ let out := import_dataset no_fault (csv_gives frame_without_price)
                  (excel_gives frame_without_price) (csv_request (manager 1))
                  empty_db in
     response out
     = {| body := ErrorBody "Colonnes manquantes: prix, stock";
          status := HTTP_400_BAD_REQUEST |}
     /\ db_after out = empty_db.
Proof.
  assert (Hin : In "prix" required_columns) by (simpl; tauto).
  assert (Hnot : ~ In "prix" (columns frame_without_price)).
  { simpl. intros H.
    repeat (destruct H as [H|H]; [discriminate|]). exact H. }
  split; [exact Hin|]. split; [exact Hnot|].
  pose proof (missing_column_aborts no_fault (csv_gives frame_without_price)
                (excel_gives frame_without_price) (csv_request (manager 1))
                empty_db 1%nat {| name := "dataset.csv"; content := "" |}
                frame_without_price eq_refl eq_refl eq_refl eq_refl eq_refl
                (ex_intro _ "prix" (conj Hin Hnot))) as [H1 [H2 _]].
  split; [exact H1 | exact H2].
Defined.


(** C3 on empty tables. *)
Lemma two_rows_one_reference_witness :
  let df := frame_of [row_A; row_A2] in
  let out := import_dataset no_fault (csv_gives df) (excel_gives df)
               (csv_request (manager 1)) empty_db in
  status (response out) = HTTP_200_OK
  /\ (exists msg,
        body (response out)
        = ImportBody msg
            {| produits_created := 1; produits_updated := 1;
               fournisseurs_created := 1; stocks_created := 1;
               stocks_updated := 1; errors := [] |})
  /\ exists p,
       produit_first (db_after out) "REF1" 1 = Some p
       /\ prix_unitaire p = Py.Finite 12
       /\ stock_quantity (db_after out) (pk p) 1 = 5.
Proof.
  intros df.
  apply (two_rows_one_reference no_fault (csv_gives df) (excel_gives df)
           (csv_request (manager 1)) empty_db 1%nat
           {| name := "dataset.csv"; content := "" |} df);
    try reflexivity.
Defined.

(** ** Where the stated leniency does not hold *)



(** ** Checks of the model on literals *)

Example strip_ex : Py.strip "  Acme " = "Acme".
Proof. reflexivity. Qed.

Example float_ex1 : Py.float_of_str "10.5" = Py.Ok (Py.Finite (21 # 2)).
Proof. reflexivity. Qed.

Example float_ex2 : Py.float_of_str " 12 " = Py.Ok (Py.Finite 12).
Proof. reflexivity. Qed.

Example float_ex3 : Py.float_of_str "1.5e1" = Py.Ok (Py.Finite 15).
Proof. reflexivity. Qed.

Example float_ex4 : Py.float_of_str "N/A" = Py.Raise (Py.ValueErrorFloat "N/A").
Proof. reflexivity. Qed.

Example int_ex1 : Py.int_of_str "-3" = Py.Ok (-3).
Proof. reflexivity. Qed.

Example int_ex2 : Py.int_of_str "5.0" = Py.Raise (Py.ValueErrorInt "5.0").
Proof. reflexivity. Qed.

Example int_ex3 : cell_int (Float (Py.Finite (-5 # 2))) = Py.Ok (-2).
Proof. reflexivity. Qed.

Example endswith_ex :
  Py.endswith "data.csv" ".csv" = true /\ Py.endswith "csv" ".csv" = false.
Proof. split; reflexivity. Qed.

Example error_msg_ex :
  error_msg 1 (Py.AttributeError "float" "strip")
  = "Ligne 3: 'float' object has no attribute 'strip'".
Proof. reflexivity. Qed.

(** The two rows of the scenario with the cells as numbers, the way the
    readers give a column that holds numbers only: same counters, same price
    and same quantity. *)
Example two_rows_numeric_cells :
  let r1 := mkrow (Str "A") (Str "REF1") (Str "cat") (Float (Py.Finite (21 # 2)))
              (Int 5) (Str "Acme") (Int 3) in
  let r2 := mkrow (Str "A2") (Str "REF1") (Str "cat") (Float (Py.Finite 12))
              (Int 5) (Str "Acme") (Int 2) in
  let w := iterrows_loop no_fault 1 0 [r1; r2] world0 in
  stats w = {| produits_created := 1; produits_updated := 1;
               fournisseurs_created := 1; stocks_created := 1;
               stocks_updated := 1; errors := [] |}
  /\ produits (db w) = [produit_of_row_A2]
  /\ stock_quantity (db w) 1 1 = 5.
Proof. repeat split. Qed.

(** A stock record always refers to a product of the table: then no stock
    record is attached to the key a new product receives. *)
Lemma no_stock_for_fresh_key d mag :
  (forall s, In s (stocks d) -> In (s_produit s) (map pk (produits d))) ->
  stock_first d (fresh_pk (map pk (produits d))) mag = None.
Proof.
  intros Hfk. unfold stock_first.
  destruct (find _ (stocks d)) as [s|] eqn:Hf; [|reflexivity].
  exfalso. apply find_some in Hf as [Hin Hm].
  unfold stock_matches in Hm. apply andb_prop in Hm as [Hm _].
  apply Nat.eqb_eq in Hm. apply Hfk in Hin.
  assert (Hle : (s_produit s <= list_max (map pk (produits d)))%nat).
  { pose proof (proj1 (list_max_le (map pk (produits d))
                         (list_max (map pk (produits d)))) (Nat.le_refl _)) as Hall.
    rewrite Forall_forall in Hall. apply Hall. exact Hin. }
  unfold fresh_pk in Hm. lia.
Qed.

(** ** What an import writes *)

Section Writes.

Variable orm_fault : DB -> orm_call -> option string.

Lemma writes_one mag w w' : write mag w w' -> writes mag w w'.
Proof. intros H. eapply writes_then; [exact H | apply writes_none]. Qed.

Lemma writes_trans mag w1 w2 w3 :
  writes mag w1 w2 -> writes mag w2 w3 -> writes mag w1 w3.
Proof.
  induction 1 as [|wa wb wc Hw _ IH]; intros H; [exact H|].
  eapply writes_then; [exact Hw | apply IH; exact H].
Qed.

Lemma gerer_fournisseur_writes mag row w w' r :
  gerer_fournisseur orm_fault mag row w = (w', r) -> writes mag w w'.
Proof.
  unfold gerer_fournisseur, get_or_create. intros H.
  run_m; try apply writes_none.
  apply writes_one. apply write_fournisseur. assumption.
Qed.

Lemma gerer_produit_writes mag row f w w' r :
  gerer_produit orm_fault mag row f w = (w', r) -> writes mag w w'.
Proof.
  intros H. destruct r as [p|e].
  - apply gerer_produit_ok in H as [data [Hb Hcases]].
    apply build_produit_data_ok in Hb as [_ [_ [_ [_ [_ [_ Hm]]]]]].
    apply writes_one.
    destruct Hcases as [[ex [Hf [-> ->]]] | [Hf [-> ->]]].
    + apply write_produit_update; assumption.
    + apply write_produit_create; assumption.
  - apply gerer_produit_raise in H as ->. apply writes_none.
Qed.

Lemma gerer_stock_writes mag row p w w' r :
  gerer_stock orm_fault mag row p w = (w', r) -> writes mag w w'.
Proof.
  unfold gerer_stock. intros H.
  run_m; try apply writes_none; apply writes_one.
  - eapply write_stock_update; [eassumption | apply Z.ltb_lt; assumption].
  - eapply write_stock_create; [eassumption | apply Z.ltb_lt; assumption].
Qed.

Lemma row_body_writes mag row w w' r :
  row_body orm_fault mag row w = (w', r) -> writes mag w w'.
Proof.
  rewrite row_body_eq. intros H.
  destruct (gerer_fournisseur orm_fault mag row w) as [w1 [f|e]] eqn:H1;
    apply gerer_fournisseur_writes in H1.
  - destruct (gerer_produit orm_fault mag row f w1) as [w2 [p|e]] eqn:H2;
      apply gerer_produit_writes in H2.
    + apply gerer_stock_writes in H.
      eapply writes_trans; [exact H1|]. eapply writes_trans; eassumption.
    + inv_pair. eapply writes_trans; eassumption.
  - inv_pair. exact H1.
Qed.

Lemma process_row_writes mag index row w :
  writes mag w (process_row orm_fault mag index row w).
Proof.
  unfold process_row.
  destruct (row_body orm_fault mag row w) as [w' [[]|e]] eqn:H;
    apply row_body_writes in H; [exact H|].
  eapply writes_trans; [exact H|]. apply writes_one. apply write_error.
Qed.

Lemma iterrows_loop_writes mag rows : forall index w,
  writes mag w (iterrows_loop orm_fault mag index rows w).
Proof.
  induction rows as [|r rows IH]; intros index w; simpl.
  - apply writes_none.
  - eapply writes_trans; [apply process_row_writes | apply IH].
Qed.

(** The view either leaves the tables and answers with an error, or answers
    200 with the stats and the tables that a sequence of writes for the
    caller's store leaves. *)
Lemma import_dataset_writes read_csv read_excel request d :
  let out := import_dataset orm_fault read_csv read_excel request d in
  (db_after out = d
   /\ (status (response out) = HTTP_400_BAD_REQUEST
       \/ status (response out) = HTTP_403_FORBIDDEN)
   /\ exists msg, body (response out) = ErrorBody msg)
  \/ (exists mag w msg,
        bound_store (user request) = Some mag
        /\ writes mag {| db := d; stats := stats0 |} w
        /\ db_after out = db w
        /\ status (response out) = HTTP_200_OK
        /\ body (response out) = ImportBody msg (stats w)).
Proof.
  unfold import_dataset, bound_store. cbv zeta.
  destruct (role (user request)) as [r|]; cbv beta iota;
    [|left; simpl; eauto].
  destruct (negb (str_in r ["manager"; "admin"])); [left; simpl; eauto|].
  destruct (user_magasin (user request)) as [[mag|]|]; cbv beta iota;
    try (left; simpl; eauto; fail).
  destruct (FILES_file request) as [file|]; cbv beta iota;
    [|left; simpl; eauto].
  destruct (negb (Py.truthy (name file))); [left; simpl; eauto|].
  destruct (read_file read_csv read_excel file) as [[df|e]|]; cbv beta iota;
    try (left; simpl; eauto; fail).
  destruct (missing_columns df); [|left; simpl; eauto].
  right. exists mag. eexists. eexists.
  split; [reflexivity|]. split; [apply iterrows_loop_writes|].
  simpl. repeat split.
Qed.

(** *** Keys *)

Lemma fresh_pk_new (l : list nat) : ~ In (fresh_pk l) l.
Proof.
  intros Hin. unfold fresh_pk in Hin.
  assert (Hall : Forall (fun k => (k <= list_max l)%nat) l)
    by (apply list_max_le; apply Nat.le_refl).
  rewrite Forall_forall in Hall. apply Hall in Hin. lia.
Qed.

Lemma NoDup_snoc {A : Type} (l : list A) (x : A) :
  NoDup l -> ~ In x l -> NoDup (l ++ [x]).
Proof.
  intros Hl Hx. induction l as [|a l IH]; simpl.
  - constructor; [intros []|constructor].
  - inversion Hl; subst. constructor.
    + rewrite in_app_iff. simpl. intros [H|[H|[]]]; [contradiction|].
      subst. apply Hx. left. reflexivity.
    + apply IH; [assumption|]. intros H. apply Hx. right. exact H.
Qed.

(** Rewriting the rows of a key with a row of that key keeps the keys. *)
Lemma map_replace_keys {A : Type} (key : A -> nat) (new : A) (l : list A) :
  map key (map (fun x => if Nat.eqb (key x) (key new) then new else x) l)
  = map key l.
Proof.
  induction l as [|a l IH]; simpl; [reflexivity|]. rewrite IH. f_equal.
  destruct (Nat.eqb (key a) (key new)) eqn:E; [|reflexivity].
  apply Nat.eqb_eq in E. symmetry. exact E.
Qed.

(** With distinct keys, two rows of the table with one key are one row. *)
Lemma key_injective {A : Type} (key : A -> nat) (l : list A) (a b : A) :
  NoDup (map key l) -> In a l -> In b l -> key a = key b -> a = b.
Proof.
  induction l as [|x l IH]; simpl; intros Hnd Ha Hb Hk; [contradiction|].
  inversion Hnd as [|? ? Hnot Hnd']; subst.
  destruct Ha as [->|Ha]; destruct Hb as [->|Hb]; auto.
  - exfalso. apply Hnot. rewrite Hk. apply in_map. exact Hb.
  - exfalso. apply Hnot. rewrite <- Hk. apply in_map. exact Ha.
Qed.

(** *** What every write keeps *)

Lemma writes_keep (I : World -> Prop) mag :
  (forall w w', write mag w w' -> I w -> I w') ->
  forall w w', writes mag w w' -> I w -> I w'.
Proof.
  intros Hstep w w' H. induction H as [|w1 w2 w3 Hw _ IH]; intros Hi; [exact Hi|].
  apply IH. eapply Hstep; eassumption.
Qed.

Lemma write_pk_unique mag w w' :
  write mag w w' -> pk_unique (db w) -> pk_unique (db w').
Proof.
  unfold pk_unique. intros H [Hf [Hp Hs]]. destruct H; simpl.
  - split; [|split; assumption]. rewrite map_app. simpl.
    apply NoDup_snoc; [assumption | apply fresh_pk_new].
  - split; [assumption|]. split; [|assumption].
    rewrite (map_replace_keys pk (set_attrs existing data)). assumption.
  - split; [assumption|]. split; [|assumption]. rewrite map_app. simpl.
    apply NoDup_snoc; [assumption | apply fresh_pk_new].
  - split; [assumption|]. split; [assumption|].
    rewrite (map_replace_keys s_pk (add_quantite existing q)). assumption.
  - split; [assumption|]. split; [assumption|]. rewrite map_app. simpl.
    apply NoDup_snoc; [assumption | apply fresh_pk_new].
  - split; [assumption|]. split; assumption.
Qed.


Lemma write_growth mag w0 w w' :
  write mag w w' -> growth_matches w0 w -> growth_matches w0 w'.
Proof.
  unfold growth_matches. intros H [Hf [Hp Hs]].
  destruct H; simpl; rewrite ?length_app, ?length_map; simpl;
    repeat split; lia.
Qed.

Lemma write_suppliers mag w w' :
  write mag w w' ->
  exists l, fournisseurs (db w') = (fournisseurs (db w) ++ l)%list
            /\ Forall (placeholder_supplier mag) l.
Proof.
  intros H. destruct H; simpl;
    try (exists []; rewrite app_nil_r; split; [reflexivity|constructor]).
  eexists. split; [reflexivity|].
  constructor; [|constructor]. repeat split.
Qed.

Lemma filter_map_same {A : Type} (test : A -> bool) (f : A -> A) (l : list A) :
  (forall x, In x l -> f x = x \/ (test x = false /\ test (f x) = false)) ->
  filter test (map f l) = filter test l.
Proof.
  induction l as [|a l IH]; simpl; intros H; [reflexivity|].
  rewrite IH by (intros x Hx; apply H; right; exact Hx).
  destruct (H a (or_introl eq_refl)) as [-> | [-> ->]]; reflexivity.
Qed.

Lemma map_map_same {A B : Type} (g : A -> B) (f : A -> A) (l : list A) :
  (forall x, In x l -> g (f x) = g x) -> map g (map f l) = map g l.
Proof.
  induction l as [|a l IH]; simpl; intros H; [reflexivity|].
  rewrite IH by (intros x Hx; apply H; right; exact Hx).
  rewrite (H a (or_introl eq_refl)). reflexivity.
Qed.

(** A product the lookup finds is in the table, has the reference looked up
    and is in the store. *)
Lemma produit_first_some d ref mag p :
  produit_first d ref mag = Some p ->
  In p (produits d) /\ reference p = ref /\ magasin p = Some mag.
Proof.
  unfold produit_first. intros H. apply find_some in H as [Hin Hm].
  unfold produit_matches in Hm. apply andb_prop in Hm as [Hr Hs].
  apply String.eqb_eq in Hr.
  destruct (magasin p) as [m|]; [|discriminate].
  apply Nat.eqb_eq in Hs. subst. auto.
Qed.

Lemma produit_first_none d ref mag p :
  produit_first d ref mag = None -> In p (produits d) ->
  ~ (reference p = ref /\ magasin p = Some mag).
Proof.
  unfold produit_first. intros H Hin [Hr Hm].
  pose proof (find_none _ _ H p Hin) as Hf. unfold produit_matches in Hf.
  rewrite Hr, Hm, String.eqb_refl, Nat.eqb_refl in Hf. discriminate.
Qed.

Lemma stock_first_some d prod mag s :
  stock_first d prod mag = Some s ->
  In s (stocks d) /\ s_produit s = prod /\ s_magasin s = mag.
Proof.
  unfold stock_first. intros H. apply find_some in H as [Hin Hm].
  unfold stock_matches in Hm. apply andb_prop in Hm as [Hp Hs].
  apply Nat.eqb_eq in Hp. apply Nat.eqb_eq in Hs. auto.
Qed.

Lemma stock_first_none d prod mag s :
  stock_first d prod mag = None -> In s (stocks d) ->
  ~ (s_produit s = prod /\ s_magasin s = mag).
Proof.
  unfold stock_first. intros H Hin [Hp Hm].
  pose proof (find_none _ _ H s Hin) as Hf. unfold stock_matches in Hf.
  rewrite Hp, Hm, !Nat.eqb_refl in Hf. discriminate.
Qed.

Lemma no_fournisseur_matches d nom mag f :
  filter (fournisseur_matches nom mag) (fournisseurs d) = [] ->
  In f (fournisseurs d) -> ~ (f_nom f = nom /\ f_magasin f = mag).
Proof.
  intros H Hin [Hn Hm].
  assert (Hf : In f (filter (fournisseur_matches nom mag) (fournisseurs d))).
  { apply filter_In. split; [exact Hin|]. unfold fournisseur_matches.
    rewrite Hn, Hm, String.eqb_refl, Nat.eqb_refl. reflexivity. }
  rewrite H in Hf. exact Hf.
Qed.

(** With distinct primary keys, a write for the store [mag] leaves the
    records of the other stores, and those of no store. *)
Lemma write_other_stores mag w w' :
  write mag w w' -> pk_unique (db w) ->
  filter (fun f => negb (Nat.eqb (f_magasin f) mag)) (fournisseurs (db w'))
  = filter (fun f => negb (Nat.eqb (f_magasin f) mag)) (fournisseurs (db w))
  /\ filter (fun p => negb (in_store mag p)) (produits (db w'))
     = filter (fun p => negb (in_store mag p)) (produits (db w))
  /\ filter (fun s => negb (Nat.eqb (s_magasin s) mag)) (stocks (db w'))
     = filter (fun s => negb (Nat.eqb (s_magasin s) mag)) (stocks (db w)).
Proof.
  intros H [Hf [Hp Hs]]. destruct H; simpl; repeat split; try reflexivity.
  - rewrite filter_app. simpl. rewrite Nat.eqb_refl. simpl. apply app_nil_r.
  - apply produit_first_some in H as [Hin [Hr Hm]].
    apply filter_map_same. intros x Hx.
    simpl. destruct (Nat.eqb (pk x) (pk existing)) eqn:E; [|left; reflexivity].
    right. apply Nat.eqb_eq in E.
    assert (x = existing) by (eapply key_injective; eassumption). subst x.
    unfold in_store. simpl. rewrite Hm, H0, Nat.eqb_refl. split; reflexivity.
  - rewrite filter_app. simpl. unfold in_store at 2. simpl.
    rewrite H0, Nat.eqb_refl. simpl. apply app_nil_r.
  - apply stock_first_some in H as [Hin [Hr Hm]].
    apply filter_map_same. intros x Hx.
    simpl. destruct (Nat.eqb (s_pk x) (s_pk existing)) eqn:E; [|left; reflexivity].
    right. apply Nat.eqb_eq in E.
    assert (x = existing) by (eapply key_injective; eassumption). subst x.
    simpl. rewrite Hm, Nat.eqb_refl. split; reflexivity.
  - rewrite filter_app. simpl. rewrite Nat.eqb_refl. simpl. apply app_nil_r.
Qed.

(** With distinct primary keys, a write keeps the natural keys distinct. *)
Lemma write_natural_keys mag w w' :
  write mag w w' -> pk_unique (db w) ->
  natural_keys_unique (db w) -> natural_keys_unique (db w').
Proof.
  unfold natural_keys_unique. intros H [Hf [Hp Hs]] [Nf [Np Ns]].
  destruct H; simpl.
  - split; [|split; assumption]. rewrite map_app. simpl.
    apply NoDup_snoc; [assumption|]. intros Hin.
    apply in_map_iff in Hin as [f [Hk Hin]]. inversion Hk.
    eapply no_fournisseur_matches; eauto.
  - split; [assumption|]. split; [|assumption].
    apply produit_first_some in H as [Hin [Hr Hm]].
    rewrite map_map_same; [assumption|]. intros x Hx.
    simpl. destruct (Nat.eqb (pk x) (pk existing)) eqn:E; [|reflexivity].
    apply Nat.eqb_eq in E.
    assert (x = existing) by (eapply key_injective; eassumption). subst x.
    simpl. rewrite Hm, H0. reflexivity.
  - split; [assumption|]. split; [|assumption]. rewrite map_app. simpl.
    apply NoDup_snoc; [assumption|]. intros Hin.
    apply in_map_iff in Hin as [p [Hk Hin]]. inversion Hk.
    eapply produit_first_none; eauto. rewrite H0 in *. auto.
  - split; [assumption|]. split; [assumption|].
    apply stock_first_some in H as [Hin [Hr Hm]].
    rewrite map_map_same; [assumption|]. intros x Hx.
    simpl. destruct (Nat.eqb (s_pk x) (s_pk existing)) eqn:E; [|reflexivity].
    apply Nat.eqb_eq in E.
    assert (x = existing) by (eapply key_injective; eassumption). subst x.
    reflexivity.
  - split; [assumption|]. split; [assumption|]. rewrite map_app. simpl.
    apply NoDup_snoc; [assumption|]. intros Hin.
    apply in_map_iff in Hin as [s [Hk Hin]]. inversion Hk.
    eapply stock_first_none; eauto.
  - auto.
Qed.

(** With distinct primary keys, a write deletes no product and no stock
    record, keeps the key, the reference and the store of every product, and
    the key, the product and the store of every stock record, and lowers no
    quantity. *)
Lemma write_keeps_records mag w w' :
  write mag w w' -> pk_unique (db w) ->
  (forall p, In p (produits (db w)) ->
     exists p', In p' (produits (db w')) /\ pk p' = pk p
                /\ reference p' = reference p /\ magasin p' = magasin p)
  /\ (forall s, In s (stocks (db w)) ->
        exists s', In s' (stocks (db w')) /\ s_pk s' = s_pk s
                   /\ s_produit s' = s_produit s /\ s_magasin s' = s_magasin s
                   /\ quantite s <= quantite s').
Proof.
  intros H [Hf [Hp Hs]].
  assert (Hsame_p : forall p : Produit, pk p = pk p /\ reference p = reference p
                                        /\ magasin p = magasin p) by auto.
  assert (Hsame_s : forall s : Stock, s_pk s = s_pk s /\ s_produit s = s_produit s
                      /\ s_magasin s = s_magasin s /\ quantite s <= quantite s)
    by (intros; repeat split; lia).
  destruct H; simpl; split; intros x Hx; try (exists x; split; [assumption|auto]; fail).
  - apply produit_first_some in H as [Hin [Hr Hm]].
    exists (if Nat.eqb (pk x) (pk existing) then set_attrs existing data else x).
    split.
    { apply (in_map (fun y => if Nat.eqb (pk y) (pk existing)
                              then set_attrs existing data else y)) in Hx.
      exact Hx. }
    destruct (Nat.eqb (pk x) (pk existing)) eqn:E; [|auto].
    apply Nat.eqb_eq in E.
    assert (x = existing) by (eapply key_injective; eassumption). subst x.
    simpl. rewrite Hm, H0. auto.
  - exists x. split; [apply in_or_app; left; assumption | auto].
  - apply stock_first_some in H as [Hin [Hr Hm]].
    exists (if Nat.eqb (s_pk x) (s_pk existing) then add_quantite existing q else x).
    split.
    { apply (in_map (fun y => if Nat.eqb (s_pk y) (s_pk existing)
                              then add_quantite existing q else y)) in Hx.
      exact Hx. }
    destruct (Nat.eqb (s_pk x) (s_pk existing)) eqn:E; [|auto].
    apply Nat.eqb_eq in E.
    assert (x = existing) by (eapply key_injective; eassumption). subst x.
    simpl. repeat split. lia.
  - exists x. split; [apply in_or_app; left; assumption | auto].
Qed.

(** *** What a sequence of writes keeps *)

Lemma writes_pk_unique mag w w' :
  writes mag w w' -> pk_unique (db w) -> pk_unique (db w').
Proof.
  apply (writes_keep (fun w => pk_unique (db w))). apply write_pk_unique.
Qed.

Lemma writes_growth mag w w' : writes mag w w' -> growth_matches w w'.
Proof.
  intros H.
  assert (H0 : growth_matches w w) by (unfold growth_matches; repeat split; lia).
  revert H0. apply (writes_keep (growth_matches w) mag); [|exact H].
  intros w1 w2. apply write_growth.
Qed.

Lemma writes_suppliers mag w w' :
  writes mag w w' ->
  exists l, fournisseurs (db w') = (fournisseurs (db w) ++ l)%list
            /\ Forall (placeholder_supplier mag) l.
Proof.
  induction 1 as [w|w1 w2 w3 Hw _ [l2 [E2 F2]]].
  - exists []. rewrite app_nil_r. split; [reflexivity|constructor].
  - destruct (write_suppliers _ _ _ Hw) as [l1 [E1 F1]].
    exists (l1 ++ l2)%list. rewrite E2, E1, <- app_assoc.
    split; [reflexivity | apply Forall_app; split; assumption].
Qed.

Lemma writes_other_stores mag w w' :
  writes mag w w' -> pk_unique (db w) ->
  filter (fun f => negb (Nat.eqb (f_magasin f) mag)) (fournisseurs (db w'))
  = filter (fun f => negb (Nat.eqb (f_magasin f) mag)) (fournisseurs (db w))
  /\ filter (fun p => negb (in_store mag p)) (produits (db w'))
     = filter (fun p => negb (in_store mag p)) (produits (db w))
  /\ filter (fun s => negb (Nat.eqb (s_magasin s) mag)) (stocks (db w'))
     = filter (fun s => negb (Nat.eqb (s_magasin s) mag)) (stocks (db w)).
Proof.
  induction 1 as [w|w1 w2 w3 Hw _ IH]; intros Hu; [auto|].
  destruct (write_other_stores _ _ _ Hw Hu) as [E1 [E2 E3]].
  destruct (IH (write_pk_unique _ _ _ Hw Hu)) as [F1 [F2 F3]].
  rewrite F1, F2, F3. auto.
Qed.

Lemma writes_natural_keys mag w w' :
  writes mag w w' -> pk_unique (db w) ->
  natural_keys_unique (db w) -> natural_keys_unique (db w').
Proof.
  induction 1 as [w|w1 w2 w3 Hw _ IH]; intros Hu Hn; [exact Hn|].
  apply IH; [eapply write_pk_unique | eapply write_natural_keys]; eassumption.
Qed.

Lemma writes_keep_records mag w w' :
  writes mag w w' -> pk_unique (db w) ->
  (forall p, In p (produits (db w)) ->
     exists p', In p' (produits (db w')) /\ pk p' = pk p
                /\ reference p' = reference p /\ magasin p' = magasin p)
  /\ (forall s, In s (stocks (db w)) ->
        exists s', In s' (stocks (db w')) /\ s_pk s' = s_pk s
                   /\ s_produit s' = s_produit s /\ s_magasin s' = s_magasin s
                   /\ quantite s <= quantite s').
Proof.
  induction 1 as [w|w1 w2 w3 Hw _ IH]; intros Hu.
  - split; intros x Hx; exists x; repeat split; auto; lia.
  - destruct (write_keeps_records _ _ _ Hw Hu) as [P1 S1].
    destruct (IH (write_pk_unique _ _ _ Hw Hu)) as [P2 S2].
    split.
    + intros p Hp. destruct (P1 p Hp) as [p1 [Hin1 [A1 [B1 C1]]]].
      destruct (P2 p1 Hin1) as [p2 [Hin2 [A2 [B2 C2]]]].
      exists p2. repeat split; try assumption; congruence.
    + intros s Hs. destruct (S1 s Hs) as [s1 [Hin1 [A1 [B1 [C1 D1]]]]].
      destruct (S2 s1 Hin1) as [s2 [Hin2 [A2 [B2 [C2 D2]]]]].
      exists s2. repeat split; try assumption; try congruence; lia.
Qed.

(** *** The view as a whole *)

Section ViewWrites.

Variable read_csv : string -> Py.result DataFrame.
Variable read_excel : UploadedFile -> Py.result DataFrame.


(** X2: the uploaded file is read only for a caller who passes the guard
    and for a file whose name is not empty and ends with .csv, .xlsx or
    .xls (in lower case: the test is case sensitive). *)
Theorem file_read_only_when_supported request d :
  file_read (import_dataset orm_fault read_csv read_excel request d) = true ->
  role_allowed (user request) = true
  /\ bound_store (user request) <> None
  /\ exists file,
       FILES_file request = Some file
       /\ Py.truthy (name file) = true
       /\ (Py.endswith (name file) ".csv" = true
           \/ Py.endswith (name file) ".xlsx" = true
           \/ Py.endswith (name file) ".xls" = true).
Proof.
  unfold import_dataset, role_allowed, bound_store, read_file.
  destruct (role (user request)) as [r|]; cbv beta iota; [|discriminate].
  destruct (str_in r ["manager"; "admin"]); simpl negb; cbv beta iota;
    [|discriminate].
  destruct (user_magasin (user request)) as [[mag|]|]; cbv beta iota;
    try discriminate.
  destruct (FILES_file request) as [file|]; cbv beta iota; [|discriminate].
  destruct (Py.truthy (name file)) eqn:Ht; simpl negb; cbv beta iota;
    [|discriminate].
  intros H. split; [reflexivity|]. split; [discriminate|].
  exists file. split; [reflexivity|]. split; [exact Ht|].
  destruct (Py.endswith (name file) ".csv"); [auto|].
  destruct (Py.endswith (name file) ".xlsx"); [auto|].
  destruct (Py.endswith (name file) ".xls"); [auto|].
  simpl in H. discriminate.
Qed.

(** X3: an import keeps the primary keys of the three tables pairwise
    distinct. *)
Theorem import_keeps_primary_keys_unique request d :
  pk_unique d ->
  pk_unique (db_after (import_dataset orm_fault read_csv read_excel request d)).
Proof.
  intros Hu.
  destruct (import_dataset_writes read_csv read_excel request d)
    as [[-> _] | [mag [w [msg [_ [Hw [-> _]]]]]]]; [exact Hu|].
  apply (writes_pk_unique _ _ _ Hw). exact Hu.
Qed.

(** X4: after an import that answers with stats, each table holds as many
    more records as its counter of creations says: [fournisseurs_created]
    suppliers, [produits_created] products, [stocks_created] stock
    records. *)
Theorem import_growth_matches_counters request d msg st :
  let out := import_dataset orm_fault read_csv read_excel request d in
  body (response out) = ImportBody msg st ->
  Z.of_nat (length (fournisseurs (db_after out)))
  = Z.of_nat (length (fournisseurs d)) + fournisseurs_created st
  /\ Z.of_nat (length (produits (db_after out)))
     = Z.of_nat (length (produits d)) + produits_created st
  /\ Z.of_nat (length (stocks (db_after out)))
     = Z.of_nat (length (stocks d)) + stocks_created st.
Proof.
  intros out Hb. subst out.
  destruct (import_dataset_writes read_csv read_excel request d)
    as [[_ [_ [m Hm]]] | [mag [w [msg' [_ [Hw [Hdb [_ Hbody]]]]]]]].
  - rewrite Hm in Hb. discriminate.
  - rewrite Hbody in Hb. inversion Hb; subst. rewrite Hdb.
    apply writes_growth in Hw. unfold growth_matches in Hw. simpl in Hw.
    intuition lia.
Qed.

(** X5: an import only appends to the supplier table: the suppliers that
    were there are left as they were, in place, and each supplier added
    belongs to the caller's store and carries the two default texts. *)
Theorem import_only_appends_suppliers request d :
  let out := import_dataset orm_fault read_csv read_excel request d in
  exists l,
    fournisseurs (db_after out) = (fournisseurs d ++ l)%list
    /\ forall f, In f l ->
         exists mag, bound_store (user request) = Some mag
                     /\ placeholder_supplier mag f.
Proof.
  intros out. subst out.
  destruct (import_dataset_writes read_csv read_excel request d)
    as [[-> _] | [mag [w [msg [Hmag [Hw [-> _]]]]]]].
  - exists []. rewrite app_nil_r. split; [reflexivity | intros f []].
  - destruct (writes_suppliers _ _ _ Hw) as [l [E F]]. exists l.
    split; [exact E|]. intros f Hin. exists mag. split; [exact Hmag|].
    rewrite Forall_forall in F. apply F. exact Hin.
Qed.

(** X6: with distinct primary keys, an import for a caller bound to the
    store [mag] leaves the suppliers, the products and the stock records of
    every other store, and the products of no store, exactly as they
    were. *)
Theorem import_leaves_other_stores request d mag :
  pk_unique d ->
  bound_store (user request) = Some mag ->
  let out := import_dataset orm_fault read_csv read_excel request d in
  filter (fun f => negb (Nat.eqb (f_magasin f) mag)) (fournisseurs (db_after out))
  = filter (fun f => negb (Nat.eqb (f_magasin f) mag)) (fournisseurs d)
  /\ filter (fun p => negb (in_store mag p)) (produits (db_after out))
     = filter (fun p => negb (in_store mag p)) (produits d)
  /\ filter (fun s => negb (Nat.eqb (s_magasin s) mag)) (stocks (db_after out))
     = filter (fun s => negb (Nat.eqb (s_magasin s) mag)) (stocks d).
Proof.
  intros Hu Hmag out. subst out.
  destruct (import_dataset_writes read_csv read_excel request d)
    as [[-> _] | [mag' [w [msg [Hmag' [Hw [-> _]]]]]]]; [auto|].
  rewrite Hmag in Hmag'. inversion Hmag'; subst mag'.
  apply (writes_other_stores _ _ _ Hw). exact Hu.
Qed.

(** X7: with distinct primary keys, an import keeps the natural keys
    pairwise distinct: it creates no second supplier of a name in a store, no
    second product of a reference in a store, no second stock record of a
    product in a store. *)
Theorem import_keeps_natural_keys_unique request d :
  pk_unique d -> natural_keys_unique d ->
  natural_keys_unique
    (db_after (import_dataset orm_fault read_csv read_excel request d)).
Proof.
  intros Hu Hn.
  destruct (import_dataset_writes read_csv read_excel request d)
    as [[-> _] | [mag [w [msg [_ [Hw [-> _]]]]]]]; [exact Hn|].
  apply (writes_natural_keys _ _ _ Hw); assumption.
Qed.

(** X8: with distinct primary keys, an import deletes no product and no
    stock record: every product is still there under its key with its
    reference and its store, and every stock record under its key with its
    product and its store and a quantity that is not lower. *)
Theorem import_never_deletes_or_lowers request d :
  pk_unique d ->
  let out := import_dataset orm_fault read_csv read_excel request d in
  (forall p, In p (produits d) ->
     exists p', In p' (produits (db_after out)) /\ pk p' = pk p
                /\ reference p' = reference p /\ magasin p' = magasin p)
  /\ (forall s, In s (stocks d) ->
        exists s', In s' (stocks (db_after out)) /\ s_pk s' = s_pk s
                   /\ s_produit s' = s_produit s /\ s_magasin s' = s_magasin s
                   /\ quantite s <= quantite s').
Proof.
  intros Hu out. subst out.
  destruct (import_dataset_writes read_csv read_excel request d)
    as [[-> _] | [mag [w [msg [_ [Hw [-> _]]]]]]].
  - split; intros x Hx; exists x; repeat split; auto; lia.
  - apply (writes_keep_records _ _ _ Hw). exact Hu.
Qed.

End ViewWrites.

(** *** Counting *)







(** *** Duplicate suppliers *)


(** *** The list view *)

(** What a caller bound to a store who is not a superuser is listed: the
    products of that store. *)
Lemma get_queryset_scoped u d mag p :
  user_magasin u = Some (Some mag) ->
  (In p (get_queryset u false d) <-> In p (produits d) /\ magasin p = Some mag).
Proof.
  intros Hu. unfold get_queryset. rewrite Hu. simpl. rewrite filter_In.
  unfold in_store. split; intros [Hin H]; (split; [exact Hin|]).
  - destruct (magasin p) as [m|]; [|discriminate].
    apply Nat.eqb_eq in H. subst. reflexivity.
  - rewrite H. apply Nat.eqb_refl.
Qed.

(** X11: the product a row of an import creates or updates is, after the
    row, listed by [get_queryset] for every caller bound to the importer's
    store, and for no caller bound to another store who is not a
    superuser. *)
Theorem imported_product_is_listed_in_its_store mag index row w p :
  produit_obj_of orm_fault mag row w = Some p ->
  let d' := db (process_row orm_fault mag index row w) in
  (forall u su, user_magasin u = Some (Some mag) -> In p (get_queryset u su d'))
  /\ (forall u mag', user_magasin u = Some (Some mag') -> mag' <> mag ->
        ~ In p (get_queryset u false d')).
Proof.
  intros Hp d'.
  assert (Hfound : produit_first d' (reference p) mag = Some p).
  { subst d'.
    destruct (process_row_body orm_fault mag index row w) as [w2 [r [Hr [Hdb _]]]].
    pose proof (row_body_tables _ _ _ _ _ _ Hr) as T. rewrite Hp in T.
    destruct T as [w1 [f [wb [_ [H2 [_ [_ [_ Hpr]]]]]]]].
    apply gerer_produit_found in H2 as [Hfound _].
    rewrite (produit_first_ext _ (db wb)); [exact Hfound|].
    rewrite Hdb. exact Hpr. }
  apply produit_first_some in Hfound as [Hin [_ Hm]].
  split.
  - intros u su Hu. destruct su.
    + unfold get_queryset. rewrite Hu. exact Hin.
    + apply (get_queryset_scoped u d' mag p Hu). auto.
  - intros u mag' Hu Hne Hl.
    apply (get_queryset_scoped u d' mag' p Hu) in Hl as [_ Hm'].
    congruence.
Qed.

(** X12: the product [perform_create] creates is appended under a key no
    product had, is listed for its creator, and is listed for a caller bound
    to a store who is not a superuser only when the creator is bound to that
    store and is not a superuser: a product a superuser creates belongs to no
    store. *)
Theorem created_product_is_listed_for_its_creator u su v d :
  let d' := fst (perform_create u su v d) in
  let p := snd (perform_create u su v d) in
  produits d' = (produits d ++ [p])%list
  /\ ~ In (pk p) (map pk (produits d))
  /\ In p (get_queryset u su d')
  /\ (forall u' mag', user_magasin u' = Some (Some mag') ->
        In p (get_queryset u' false d') ->
        su = false /\ user_magasin u = Some (Some mag')).
Proof.
  intros d' p. subst d' p. unfold perform_create. simpl.
  split; [reflexivity|]. split; [apply fresh_pk_new|]. split.
  - unfold get_queryset. simpl.
    destruct (user_magasin u) as [[m|]|];
      try (apply in_or_app; right; left; reflexivity).
    destruct su; simpl.
    + apply in_or_app; right; left; reflexivity.
    + rewrite filter_app. apply in_or_app. right. simpl.
      unfold in_store. simpl. rewrite Nat.eqb_refl. left. reflexivity.
  - intros u' mag' Hu' Hl.
    apply (get_queryset_scoped u' _ mag' _ Hu') in Hl as [Hin Hm].
    clear Hin. simpl in Hm.
    destruct (user_magasin u) as [[m|]|]; try discriminate.
    destruct su; simpl in Hm; [discriminate|].
    inversion Hm. auto.
Qed.

(** *** A row processed twice *)

Section Again.

Hypothesis no_orm_fault : forall d c, orm_fault d c = None.

(** What [produit_data] holds does not depend on the state. *)
Lemma build_produit_data_any_state mag row f w w' r :
  build_produit_data mag row f w = (w, r) ->
  build_produit_data mag row f w' = (w', r).
Proof.
  unfold build_produit_data, stripped, float_or_zero, int_or_zero. unfold_m.
  destruct (row_get row "nom") as [c1|]; [|intros; inv_pair; reflexivity].
  destruct (cell_strip c1); [|intros; inv_pair; reflexivity].
  destruct (row_get row "reference") as [c2|]; [|intros; inv_pair; reflexivity].
  destruct (cell_strip c2); [|intros; inv_pair; reflexivity].
  destruct (row_get row "categorie") as [c3|]; [|intros; inv_pair; reflexivity].
  destruct (cell_strip c3); [|intros; inv_pair; reflexivity].
  destruct (row_get row "prix") as [c4|]; [|intros; inv_pair; reflexivity].
  destruct (notna c4); [destruct (cell_float c4)|];
    try (intros; inv_pair; reflexivity);
    (destruct (row_get row "seuil_alerte") as [c5|];
     [|intros; inv_pair; reflexivity]);
    (destruct (notna c5); [destruct (cell_int c5)|]);
    intros; inv_pair; reflexivity.
Qed.

(** Step 1 again, on tables whose suppliers are those the first run left:
    the same supplier, and nothing written. *)
Lemma gerer_fournisseur_again mag row w wa f w1 :
  gerer_fournisseur orm_fault mag row w = (wa, Py.Ok f) ->
  fournisseurs (db w1) = fournisseurs (db wa) ->
  gerer_fournisseur orm_fault mag row w1 = (w1, Py.Ok f).
Proof.
  intros H Hs.
  destruct (row_get row "fournisseur") as [c|e] eqn:Hc;
    [|unfold gerer_fournisseur in H; unfold_m; rewrite Hc in H; discriminate].
  destruct (notna c) eqn:Hn.
  - destruct c as [|s|z|x]; try discriminate;
      try (unfold gerer_fournisseur in H; unfold_m; rewrite Hc in H;
           simpl in H; discriminate).
    + destruct (Py.truthy (Py.strip s)) eqn:Ht.
      * rewrite (gerer_fournisseur_named orm_fault no_orm_fault mag row w s Hc Ht) in H.
        rewrite (gerer_fournisseur_named orm_fault no_orm_fault mag row w1 s Hc Ht).
        rewrite Hs.
        destruct (filter (fournisseur_matches (Py.strip s) mag) (fournisseurs (db w)))
          as [|x [|y l]] eqn:Hf; inv_pair; simpl; [|rewrite Hf; reflexivity].
        rewrite filter_app, Hf. simpl.
        unfold fournisseur_matches at 1. simpl.
        rewrite String.eqb_refl, Nat.eqb_refl. reflexivity.
      * rewrite (gerer_fournisseur_blank orm_fault mag row w (Str s) Hc) in H
          by (right; exists s; split; [reflexivity|];
              destruct (Py.strip s); [reflexivity|discriminate]).
        inv_pair.
        apply gerer_fournisseur_blank with (c := Str s); [exact Hc|].
        right. exists s. split; [reflexivity|].
        destruct (Py.strip s); [reflexivity|discriminate].
    + destruct x; try discriminate;
        unfold gerer_fournisseur in H; unfold_m; rewrite Hc in H;
        simpl in H; discriminate.
  - rewrite (gerer_fournisseur_blank orm_fault mag row w c Hc (or_introl Hn)) in H.
    inv_pair. apply gerer_fournisseur_blank with (c := c); auto.
Qed.

(** The attributes of the product of step 2 are already those of
    [produit_data]. *)
Lemma set_attrs_again mag row f w w' p data :
  gerer_produit orm_fault mag row f w = (w', Py.Ok p) ->
  build_produit_data mag row f w = (w, Py.Ok data) ->
  set_attrs p data = p /\ reference p = d_reference data.
Proof.
  intros H Hb.
  apply gerer_produit_ok in H as [data' [Hb' Hc]].
  rewrite Hb in Hb'. inv_pair.
  destruct Hc as [[ex [Hf [-> _]]] | [_ [-> _]]]; simpl; [|auto].
  apply produit_first_some in Hf as [_ [Hr _]]. auto.
Qed.

(** After step 2, every record of the key of its product is that product. *)
Lemma gerer_produit_key mag row f w w' p x :
  gerer_produit orm_fault mag row f w = (w', Py.Ok p) ->
  In x (produits (db w')) -> pk x = pk p -> x = p.
Proof.
  intros H Hin Hk.
  apply gerer_produit_ok in H as [data [_ Hc]].
  destruct Hc as [[ex [_ [Hp ->]]] | [_ [Hp ->]]]; simpl in Hin.
  - apply in_map_iff in Hin as [y [Hy _]].
    destruct (Nat.eqb (pk y) (pk p)) eqn:E; [auto|].
    subst x. apply Nat.eqb_neq in E. contradiction.
  - apply in_app_or in Hin as [Hin|[Hin|[]]]; [|auto].
    exfalso. apply (fresh_pk_new (map pk (produits (db w)))).
    replace (fresh_pk (map pk (produits (db w)))) with (pk x)
      by (rewrite Hk, Hp; reflexivity).
    apply in_map. exact Hin.
Qed.

Lemma map_replace_fixed (l : list Produit) (p : Produit) :
  (forall x, In x l -> pk x = pk p -> x = p) ->
  map (fun x => if Nat.eqb (pk x) (pk p) then p else x) l = l.
Proof.
  induction l as [|a l IH]; simpl; intros H; [reflexivity|].
  rewrite IH by (intros x Hx; apply H; right; exact Hx).
  destruct (Nat.eqb (pk a) (pk p)) eqn:E; [|reflexivity].
  apply Nat.eqb_eq in E. rewrite (H a (or_introl eq_refl) E). reflexivity.
Qed.

(** Step 3 again returns when it returned once. *)
Lemma gerer_stock_again mag row p w w1 w' :
  gerer_stock orm_fault mag row p w = (w1, Py.Ok tt) ->
  exists w2, gerer_stock orm_fault mag row p w' = (w2, Py.Ok tt).
Proof.
  intros H.
  destruct (row_get row "stock") as [c|e] eqn:Hc;
    [|unfold gerer_stock in H; unfold_m; rewrite Hc in H; discriminate].
  destruct (notna c) eqn:Hn;
    [|eexists; apply (gerer_stock_skips orm_fault mag row p w' c Hc); auto].
  destruct (cell_int c) as [q|e] eqn:Hq;
    [|rewrite (gerer_stock_unparseable orm_fault mag row p w c e Hc Hn Hq) in H;
      discriminate].
  destruct (Z_lt_le_dec 0 q) as [Hpos|Hle].
  - rewrite (gerer_stock_accumulates orm_fault no_orm_fault mag row p w' c q
               Hc Hn Hq Hpos).
    destruct (stock_first (db w') (pk p) mag); eexists; reflexivity.
  - eexists. apply (gerer_stock_skips orm_fault mag row p w' c Hc).
    right. exists q. auto.
Qed.

(** X13: with a storage layer that raises nothing, a row that was processed
    without an exception is processed without an exception when processed
    again at once, and this second pass creates nothing: the supplier and
    product tables are as the first pass left them, [produits_updated] goes up
    by one and the two counters of creations stay; only the stock moves: a
    positive quantity of the row is added to the stock of its product once
    more. *)
Theorem row_processed_again mag row w w1 :
  row_body orm_fault mag row w = (w1, Py.Ok tt) ->
  exists w2,
    row_body orm_fault mag row w1 = (w2, Py.Ok tt)
    /\ fournisseurs (db w2) = fournisseurs (db w1)
    /\ produits (db w2) = produits (db w1)
    /\ fournisseurs_created (stats w2) = fournisseurs_created (stats w1)
    /\ produits_created (stats w2) = produits_created (stats w1)
    /\ produits_updated (stats w2) = produits_updated (stats w1) + 1
    /\ exists p,
         produit_obj_of orm_fault mag row w = Some p
         /\ produit_obj_of orm_fault mag row w1 = Some p
         /\ forall c q, row_get row "stock" = Py.Ok c -> notna c = true ->
              cell_int c = Py.Ok q -> 0 < q ->
              stock_quantity (db w2) (pk p) mag
              = stock_quantity (db w1) (pk p) mag + q.
Proof.
  intros Hr.
  pose proof Hr as Hr0. rewrite row_body_eq in Hr0.
  destruct (gerer_fournisseur orm_fault mag row w) as [wa [f|e]] eqn:H1;
    [|discriminate].
  destruct (gerer_produit orm_fault mag row f wa) as [wb [p|e]] eqn:H2;
    [|discriminate].
  rename Hr0 into H3.
  apply gerer_produit_frame in H2 as F2. apply gerer_stock_frame in H3 as F3.
  destruct F2 as [Ff2 _]. destruct F3 as [Ff3 [Fp3 _]].
  (* step 1 again *)
  assert (A1 : gerer_fournisseur orm_fault mag row w1 = (w1, Py.Ok f)).
  { apply (gerer_fournisseur_again mag row w wa f w1 H1). congruence. }
  (* step 2 again *)
  pose proof (gerer_produit_ok _ _ _ _ _ _ _ H2) as [data [Hb _]].
  pose proof (set_attrs_again _ _ _ _ _ _ _ H2 Hb) as [Hsame Href].
  pose proof (gerer_produit_found _ _ _ _ _ _ _ H2) as [Hfound _].
  assert (Hfound1 : produit_first (db w1) (d_reference data) mag = Some p).
  { rewrite <- Href, (produit_first_ext _ (db wb)) by exact Fp3. exact Hfound. }
  pose proof (gerer_produit_upserts orm_fault no_orm_fault mag row f w1 data
                (build_produit_data_any_state _ _ _ _ w1 _ Hb)) as A2.
  rewrite Hfound1, Hsame in A2.
  assert (Hfix : produits (save_produit p (db w1)) = produits (db w1)).
  { simpl. apply map_replace_fixed. intros x Hx Hk.
    rewrite Fp3 in Hx. exact (gerer_produit_key mag row f wa wb p x H2 Hx Hk). }
  (* step 3 again *)
  destruct (gerer_stock_again mag row p wb w1
              {| db := save_produit p (db w1);
                 stats := incr_produits_updated (stats w1) |} H3) as [w2 A3].
  exists w2.
  assert (Hbody : row_body orm_fault mag row w1 = (w2, Py.Ok tt))
    by (rewrite row_body_eq, A1, A2; exact A3).
  split; [exact Hbody|].
  apply gerer_stock_frame in A3 as G3. simpl in G3.
  destruct G3 as [Gf [Gp [_ [Gfc [Gpc [Gpu _]]]]]].
  split; [exact Gf|]. split; [rewrite Gp; exact Hfix|].
  split; [exact Gfc|]. split; [exact Gpc|]. split; [exact Gpu|].
  exists p.
  split; [rewrite produit_obj_of_eq, H1, H2; reflexivity|].
  split; [rewrite produit_obj_of_eq, A1, A2; reflexivity|].
  intros c q Hc Hn Hq Hpos.
  rewrite (gerer_stock_adds _ _ _ _ _ _ _ _ Hc Hn Hq Hpos A3).
  f_equal.
Qed.

End Again.

End Writes.

(** ** The further statements at sample data *)

Lemma two_stores_db_pk_unique : pk_unique two_stores_db.
Proof.
  unfold pk_unique. simpl.
  repeat split; repeat constructor; simpl; intuition discriminate.
Qed.

Lemma two_stores_db_natural_keys_unique : natural_keys_unique two_stores_db.
Proof.
  unfold natural_keys_unique. simpl.
  repeat split; repeat constructor; simpl; intuition discriminate.
Qed.

(** X2 at the import of the scenario. *)
Lemma file_read_only_when_supported_witness :
  let df := frame_of [row_A; row_A2] in
  file_read (import_dataset no_fault (csv_gives df) (excel_gives df)
               (csv_request (manager 1)) empty_db) = true
  /\ Py.endswith "dataset.csv" ".csv" = true
  /\ exists file,
       FILES_file (csv_request (manager 1)) = Some file
       /\ Py.truthy (name file) = true
       /\ (Py.endswith (name file) ".csv" = true
           \/ Py.endswith (name file) ".xlsx" = true
           \/ Py.endswith (name file) ".xls" = true).
Proof.
  intros df. split; [reflexivity|]. split; [reflexivity|].
  apply (file_read_only_when_supported no_fault (csv_gives df) (excel_gives df)
           (csv_request (manager 1)) empty_db eq_refl).
Defined.

(** X3 at an import into the tables of two stores. *)
Lemma import_keeps_primary_keys_unique_witness :
  let df := frame_of [row_A; row_B] in
  pk_unique two_stores_db
  /\ pk_unique (db_after (import_dataset no_fault (csv_gives df) (excel_gives df)
                            (csv_request (manager 1)) two_stores_db)).
Proof.
  intros df. split; [exact two_stores_db_pk_unique|].
  apply (import_keeps_primary_keys_unique no_fault (csv_gives df) (excel_gives df)
           (csv_request (manager 1)) two_stores_db two_stores_db_pk_unique).
Defined.

(** X4 at the import of the scenario. *)
Lemma import_growth_matches_counters_witness :
  let df := frame_of [row_A; row_A2] in
  let out := import_dataset no_fault (csv_gives df) (excel_gives df)
               (csv_request (manager 1)) empty_db in
  length (fournisseurs (db_after out)) = 1%nat
  /\ length (produits (db_after out)) = 1%nat
  /\ length (stocks (db_after out)) = 1%nat.
Proof.
  intros df out.
  pose proof (import_growth_matches_counters no_fault (csv_gives df) (excel_gives df)
                (csv_request (manager 1)) empty_db _ _ eq_refl) as [H1 [H2 H3]].
  fold out in H1, H2, H3. simpl in H1, H2, H3.
  repeat split; lia.
Defined.

(** X6 at an import by a manager of store 1 into the tables of two
    stores: what store 2 holds is as it was. *)
Lemma import_leaves_other_stores_witness :
  let df := frame_of [row_A; row_B] in
  let out := import_dataset no_fault (csv_gives df) (excel_gives df)
               (csv_request (manager 1)) two_stores_db in
  filter (fun f => negb (Nat.eqb (f_magasin f) 1)) (fournisseurs (db_after out))
  = fournisseurs two_stores_db
  /\ filter (fun p => negb (in_store 1 p)) (produits (db_after out))
     = [produit_in 2 "REF1" (Some 2%nat); produit_in 3 "REF9" None]
  /\ filter (fun s => negb (Nat.eqb (s_magasin s) 1)) (stocks (db_after out))
     = [{| s_pk := 2; s_produit := 2; s_magasin := 2; quantite := 20 |}].
Proof.
  intros df out.
  exact (import_leaves_other_stores no_fault (csv_gives df) (excel_gives df)
           (csv_request (manager 1)) two_stores_db 1%nat
           two_stores_db_pk_unique eq_refl).
Defined.

(** X7 at the same import. *)
Lemma import_keeps_natural_keys_unique_witness :
  let df := frame_of [row_A; row_B] in
  natural_keys_unique
    (db_after (import_dataset no_fault (csv_gives df) (excel_gives df)
                 (csv_request (manager 1)) two_stores_db)).
Proof.
  intros df.
  apply (import_keeps_natural_keys_unique no_fault (csv_gives df) (excel_gives df)
           (csv_request (manager 1)) two_stores_db
           two_stores_db_pk_unique two_stores_db_natural_keys_unique).
Defined.

(** X8 at the same import: the product REF1 of store 1 keeps its key, and
    its stock of 10 is not lowered. *)
Lemma import_never_deletes_or_lowers_witness :
  let df := frame_of [row_A; row_B] in
  let out := import_dataset no_fault (csv_gives df) (excel_gives df)
               (csv_request (manager 1)) two_stores_db in
  (exists p', In p' (produits (db_after out)) /\ pk p' = 1%nat
              /\ reference p' = "REF1" /\ magasin p' = Some 1%nat)
  /\ (exists s', In s' (stocks (db_after out)) /\ s_pk s' = 1%nat
                 /\ s_produit s' = 1%nat /\ s_magasin s' = 1%nat
                 /\ 10 <= quantite s').
Proof.
  intros df out.
  destruct (import_never_deletes_or_lowers no_fault (csv_gives df) (excel_gives df)
              (csv_request (manager 1)) two_stores_db two_stores_db_pk_unique)
    as [P S].
  split.
  - apply (P (produit_in 1 "REF1" (Some 1%nat))). left. reflexivity.
  - apply (S {| s_pk := 1; s_produit := 1; s_magasin := 1; quantite := 10 |}).
    left. reflexivity.
Defined.


(** X11 at the first row of the scenario. *)
Lemma imported_product_is_listed_in_its_store_witness :
  let d' := db (process_row no_fault 1 0 row_A world0) in
  In produit_of_row_A (get_queryset (manager 1) false d')
  /\ ~ In produit_of_row_A (get_queryset (manager 2) false d').
Proof.
  intros d'.
  destruct (imported_product_is_listed_in_its_store no_fault 1 0 row_A world0
              produit_of_row_A eq_refl) as [H1 H2].
  split.
  - apply H1. reflexivity.
  - apply (H2 (manager 2) 2%nat); [reflexivity | discriminate].
Defined.

(** X13 at the first row of the scenario: the second pass leaves one
    supplier and one product and brings the stock from 3 to 6. *)
Lemma row_processed_again_witness :
  let w1 := process_row no_fault 1 0 row_A world0 in
  row_body no_fault 1 row_A world0 = (w1, Py.Ok tt)
  /\ exists w2,
       row_body no_fault 1 row_A w1 = (w2, Py.Ok tt)
       /\ fournisseurs (db w2) = fournisseurs (db w1)
       /\ produits (db w2) = produits (db w1).
Proof.
  intros w1. split; [reflexivity|].
  destruct (row_processed_again no_fault (fun d c => eq_refl) 1 row_A world0 w1
              eq_refl) as [w2 [H1 [H2 [H3 _]]]].
  exists w2. auto.
Defined.
